(** * Tunnel agent: a shallow embedding of the client-side agent

    The development follows the TypeScript sources:
    - [utils/utils.ts]: message construction, request logging, public-URL repair;
    - [services/http-proxy.service.ts]: the forwarder to the local service;
    - [services/message-handler.service.ts]: the session handler;
    - [socketIO/socket-handler.ts]: the dispatcher of inbound frames.

    Strings are Rocq strings read as sequences of ASCII code units; header
    records are finite maps keyed by strings; the socket, the timers, the
    clock and the process exit are threaded through an explicit machine
    state.  An asynchronous handler is run to its end from the point where
    it is started: the outcome of each awaited call (the axios request, the
    [connectFn()] of [services/tunnel-client.service.ts]) is an input, and
    the interleaving of several handlers is not part of the model.  Console
    output is left out. *)

From Stdlib Require Import ZArith List Bool Ascii String Lia.
From stdpp Require Import base option gmap strings fin_maps pretty.

Import ListNotations.
Local Open Scope string_scope.

(** ** JavaScript string primitives and the regular expressions of [utils.ts] *)

Module Js.

(** [s.startsWith(p)] *)
Fixpoint startsWith (s p : string) {struct p} : bool :=
  match p with
  | EmptyString => true
  | String c p' =>
      match s with
      | EmptyString => false
      | String d s' => if Ascii.eqb c d then startsWith s' p' else false
      end
  end.

(** The remainder of [s] after the literal [p], when [s] starts with [p]. *)
Fixpoint dropPrefix (p s : string) : option string :=
  match p with
  | EmptyString => Some s
  | String c p' =>
      match s with
      | EmptyString => None
      | String d s' => if Ascii.eqb c d then dropPrefix p' s' else None
      end
  end.

(** [s.includes(needle)] *)
Fixpoint includes (s needle : string) {struct s} : bool :=
  startsWith s needle
  || match s with
     | EmptyString => false
     | String _ s' => includes s' needle
     end.

(** Truthiness of a string value: only the empty string is falsy. *)
Definition truthy (s : string) : bool :=
  match s with
  | EmptyString => false
  | String _ _ => true
  end.

(** [\d] without the unicode flag is [0-9]. *)
Definition isDigit (c : ascii) : bool :=
  let n := nat_of_ascii c in (48 <=? n)%nat && (n <=? 57)%nat.

Definition isUpper (c : ascii) : bool :=
  let n := nat_of_ascii c in (65 <=? n)%nat && (n <=? 90)%nat.

Definition lowerChar (c : ascii) : ascii :=
  if isUpper c then ascii_of_nat (nat_of_ascii c + 32) else c.

(** [s.toLowerCase()] on ASCII code units. *)
Fixpoint toLowerCase (s : string) : string :=
  match s with
  | EmptyString => EmptyString
  | String c s' => String (lowerChar c) (toLowerCase s')
  end.

(** *** [/localhost|127\.0\.0\.1/.test(s)] *)
Fixpoint test_localhost (s : string) : bool :=
  startsWith s "localhost"
  || startsWith s "127.0.0.1"
  || match s with
     | EmptyString => false
     | String _ s' => test_localhost s'
     end.

(** *** [/\.(com|net|org|io|dev|app|co|fit)\d+/g] *)

Definition tlds : list string :=
  ["com"; "net"; "org"; "io"; "dev"; "app"; "co"; "fit"].

Fixpoint skipDigits (s : string) : string :=
  match s with
  | EmptyString => EmptyString
  | String c s' => if isDigit c then skipDigits s' else s
  end.

(** [\d+] at the head of [s], greedy: the rest after the digits. *)
Definition matchDigits (s : string) : option string :=
  match s with
  | EmptyString => None
  | String c s' => if isDigit c then Some (skipDigits s') else None
  end.

(** The alternatives are tried in order; an alternative that matches but is
    not followed by a digit is abandoned for the next one. *)
Fixpoint matchTld (alts : list string) (s : string) : option (string * string) :=
  match alts with
  | [] => None
  | t :: alts' =>
      match dropPrefix t s with
      | Some r =>
          match matchDigits r with
          | Some rest => Some (t, rest)
          | None => matchTld alts' s
          end
      | None => matchTld alts' s
      end
  end.

(** A match of the whole pattern at the head of [s]: the captured group
    and the text after the match. *)
Definition matchTldPort (s : string) : option (string * string) :=
  match s with
  | String "."%char s' => matchTld tlds s'
  | _ => None
  end.

(** Global replacement by ['.$1']: leftmost match, then on from its end. *)
Fixpoint replaceTldPorts (fuel : nat) (s : string) : string :=
  match fuel with
  | O => s
  | S fuel' =>
      match s with
      | EmptyString => EmptyString
      | String c s' =>
          match matchTldPort s with
          | Some (t, rest) => String "."%char (t +:+ replaceTldPorts fuel' rest)
          | None => String c (replaceTldPorts fuel' s')
          end
      end
  end.

Definition stripTldPorts (s : string) : string :=
  replaceTldPorts (String.length s) s.

(** *** [/:(\d+)$/] replaced by [''] *)

Fixpoint allDigits (s : string) : bool :=
  match s with
  | EmptyString => true
  | String c s' => isDigit c && allDigits s'
  end.

(** The pattern matches at the head of [s] when [s] is a colon followed by
    one or more digits up to the end of the string. *)
Definition matchTrailingPort (s : string) : bool :=
  match s with
  | String ":"%char (String c r) => allDigits (String c r)
  | _ => false
  end.

Fixpoint stripTrailingPort (s : string) : string :=
  match s with
  | EmptyString => EmptyString
  | String c s' =>
      if matchTrailingPort s then EmptyString
      else String c (stripTrailingPort s')
  end.

(** *** [/(?:wss?:\/\/)?([^:/]+)/], first capture group *)

Definition notSep (c : ascii) : bool :=
  negb (Ascii.eqb c ":"%char || Ascii.eqb c "/"%char).

Fixpoint takeRun (s : string) : string :=
  match s with
  | EmptyString => EmptyString
  | String c s' => if notSep c then String c (takeRun s') else EmptyString
  end.

(** Strings made of characters other than [:] and [/]. *)
Fixpoint noSep (s : string) : bool :=
  match s with
  | EmptyString => true
  | String c s' => notSep c && noSep s'
  end.

(** [([^:/]+)] at the head of [s], greedy. *)
Definition matchRun (s : string) : option string :=
  match s with
  | EmptyString => None
  | String c _ => if notSep c then Some (takeRun s) else None
  end.

(** The optional scheme group is greedy: [wss://] and [ws://] are tried
    before the empty alternative. *)
Definition matchServerAt (s : string) : option string :=
  let after p :=
    match dropPrefix p s with
    | Some r => matchRun r
    | None => None
    end in
  match after "wss://" with
  | Some d => Some d
  | None =>
      match after "ws://" with
      | Some d => Some d
      | None => matchRun s
      end
  end.

(** [s.match(re)?.[1]]: the leftmost position at which the pattern matches. *)
Fixpoint matchServer (s : string) : option string :=
  match matchServerAt s with
  | Some d => Some d
  | None =>
      match s with
      | EmptyString => None
      | String _ s' => matchServer s'
      end
  end.

(** *** [s.replace(/^http:\/\//, 'https://')] *)
Definition forceHttps (s : string) : string :=
  match dropPrefix "http://" s with
  | Some r => "https://" +:+ r
  | None => s
  end.

End Js.

(** ** Base64 as produced by [Buffer.prototype.toString('base64')] *)

Module Base64.

Definition alphabet : string :=
  "ABCDEFGHIJKLMNOPQRSTUVWXYZabcdefghijklmnopqrstuvwxyz0123456789+/".

Definition sextet (n : N) : ascii :=
  match String.get (N.to_nat n) alphabet with
  | Some c => c
  | None => "="%char
  end.

Fixpoint encode (bs : list Byte.byte) : string :=
  match bs with
  | [] => ""
  | [a] =>
      let x := Byte.to_N a in
      String (sextet (x / 4)) (String (sextet ((x mod 4) * 16)) "==")
  | [a; b] =>
      let x := Byte.to_N a in
      let y := Byte.to_N b in
      String (sextet (x / 4))
        (String (sextet ((x mod 4) * 16 + y / 16))
           (String (sextet ((y mod 16) * 4)) "="))
  | a :: b :: c :: rest =>
      let x := Byte.to_N a in
      let y := Byte.to_N b in
      let z := Byte.to_N c in
      String (sextet (x / 4))
        (String (sextet ((x mod 4) * 16 + y / 16))
           (String (sextet ((y mod 16) * 4 + z / 64))
              (String (sextet (z mod 64)) (encode rest))))
  end.

End Base64.

(** [Buffer.from(s)] for an ASCII string: one byte per character. *)
Definition bufferFromString (s : string) : list Byte.byte := list_byte_of_string s.

(** ** [interfaces/tunnel-client.interface.ts] *)

Module TunnelClientOptions.
Record t := {
  serverUrl : string;
  localPort : Z;
  subdomain : string;
  token : option string;
  reconnect : option bool
}.
End TunnelClientOptions.

(** ** [interfaces/protocol.interface.ts] *)

Inductive MessageType :=
| CONNECT | CONNECT_ACK | REQUEST | RESPONSE | REQUEST_LOG
| HEARTBEAT | HEARTBEAT_ACK | LOCAL_SERVICE_PING | ERROR | DISCONNECT.

(** A header value is [string | string[]]. *)
Inductive HeaderValue :=
| HString (s : string)
| HArray (l : list string).

(** Truthiness of a header value: an array is an object, hence truthy. *)
Definition truthyValue (v : HeaderValue) : bool :=
  match v with
  | HString s => Js.truthy s
  | HArray _ => true
  end.

(** [Record<string, string | string[]>]; header names are ordinary property
    names. *)
Abbreviation Headers := (gmap string HeaderValue).

Module RequestMetadata.
Record t := {
  method : string;
  path : string;
  query : string;
  headers : Headers
}.
End RequestMetadata.

Module ResponseMetadata.
Record t := {
  statusCode : Z;
  statusMessage : string;
  headers : Headers
}.
End ResponseMetadata.

Module ConnectAckMessage.
Record t := {
  tunnelId : string;
  subdomain : string;
  publicUrl : string
}.
End ConnectAckMessage.

Module RequestMessage.
Record t := {
  streamId : string;
  tunnelId : string;
  metadata : RequestMetadata.t;
  body : string
}.
End RequestMessage.

Module RequestLogMessage.
Record t := {
  tunnelId : string;
  method : string;
  host : HeaderValue;
  path : string;
  statusCode : Z;
  responseTime : Z;
  userAgent : option HeaderValue;
  ipAddress : option HeaderValue;
  errorMessage : option string
}.
End RequestLogMessage.

(** The fields a frame carries besides [type] and [timestamp]. *)
Inductive Payload :=
| ConnectPayload (token requestedSubdomain agentVersion : option string)
    (localPort requestCount : option Z)
| ConnectAckPayload (ack : ConnectAckMessage.t)
| RequestPayload (request : RequestMessage.t)
| ResponsePayload (streamId : string) (metadata : ResponseMetadata.t) (body : string)
| RequestLogPayload (log : RequestLogMessage.t)
| EmptyPayload
| LocalServicePingPayload (tunnelId : string) (localServiceConnected : bool)
| ErrorPayload (streamId : option string) (code message : string)
| DisconnectPayload (reason : option string).

Module TunnelMessage.
Record t := {
  type : MessageType;
  timestamp : Z;
  payload : Payload
}.
End TunnelMessage.

#[global] Instance MessageType_eq_dec : EqDecision MessageType.
Proof. solve_decision. Defined.

(** ** [interfaces/http-proxy-interface.ts] and the HTTP client *)

Module ProxyRequest.
Record t := {
  method : string;
  path : string;
  query : string;
  headers : Headers;
  body : list Byte.byte
}.
End ProxyRequest.

Module ProxyResponse.
Record t := {
  statusCode : Z;
  statusMessage : string;
  headers : Headers;
  body : list Byte.byte
}.
End ProxyResponse.

(** The configuration object handed to [axios(...)].  [validateStatus] is the
    constant [true] function, so every HTTP response resolves the call. *)
Module AxiosRequestConfig.
Record t := {
  method : string;
  url : string;
  headers : Headers;
  data : option (list Byte.byte);
  responseType : string;
  maxRedirects : Z
}.
End AxiosRequestConfig.

(** A thrown value. *)
Inductive Thrown :=
| AxiosError (code : option string) (message : string)
| PlainError (message : string)
| OtherValue.

(** [error instanceof Error] *)
Definition instanceofError (e : Thrown) : bool :=
  match e with
  | AxiosError _ _ | PlainError _ => true
  | OtherValue => false
  end.

Definition errorMessageOf (e : Thrown) : string :=
  match e with
  | AxiosError _ m | PlainError m => m
  | OtherValue => ""
  end.

Inductive AxiosOutcome :=
| Responded (status : Z) (statusText : string) (headers : Headers) (data : list Byte.byte)
| Threw (e : Thrown).

(** ** The environment of the agent *)

Record Env := {
  (** the successive readings of [Date.now()] *)
  dateNow : nat -> Z;
  (** what the local service, through axios, answers to the n-th call *)
  axios : nat -> AxiosRequestConfig.t -> AxiosOutcome;
  (** [Buffer.from(s, 'base64')] *)
  bufferFromBase64 : string -> list Byte.byte;
  (** [process.env.NODE_ENV], [process.env.AGENT_VERSION] and
      [process.env.TUNNEL_SERVER_URL] *)
  NODE_ENV : option string;
  ENV_AGENT_VERSION : option string;
  ENV_TUNNEL_SERVER_URL : option string
}.

(** [config.ts] *)
Definition AGENT_VERSION (E : Env) : option string :=
  match NODE_ENV E with
  | Some "development" => ENV_AGENT_VERSION E
  | _ => Some "1.0.0"
  end.

Definition DEFAULT_TUNNEL_SERVER (E : Env) : option string :=
  match NODE_ENV E with
  | Some "development" => ENV_TUNNEL_SERVER_URL E
  | _ => Some "https://tunnl.fit"
  end.

(** ** The machine: handler fields, socket traffic, timers, clock, process *)

Module HttpProxyObject.
Record t := { localPort : Z }.
End HttpProxyObject.

(** What an armed timer will run. *)
Inductive Callback :=
| HeartbeatTick
| LocalServicePingTick
| ReconnectTick (retryCount : Z).

Module Timer.
Record t := {
  id : nat;
  delay : Z;
  repeats : bool;
  callback : Callback
}.
End Timer.

Module Emitted.
Record t := {
  socket : nat;
  event : string;
  data : TunnelMessage.t
}.
End Emitted.

(** A call of [resolve()] or [reject(error)], or the settlement of an
    awaited promise. *)
Inductive Settlement :=
| Resolved
| Rejected (error : Thrown).

(** The fields of [MessageHandlerService]. *)
Module Handler.
Record t := {
  socket : nat;
  options : TunnelClientOptions.t;
  isConnected : bool;
  shouldReconnect : bool;
  tunnelId : option string;
  subdomain : option string;
  publicUrl : option string;
  httpProxy : option HttpProxyObject.t;
  heartbeatInterval : option nat;
  reconnectTimeout : option nat;
  localServicePingInterval : option nat
}.

Definition set_socket (x : nat) (h : t) : t :=
  {| socket := x; options := options h; isConnected := isConnected h;
     shouldReconnect := shouldReconnect h; tunnelId := tunnelId h;
     subdomain := subdomain h; publicUrl := publicUrl h; httpProxy := httpProxy h;
     heartbeatInterval := heartbeatInterval h; reconnectTimeout := reconnectTimeout h;
     localServicePingInterval := localServicePingInterval h |}.

Definition set_isConnected (x : bool) (h : t) : t :=
  {| socket := socket h; options := options h; isConnected := x;
     shouldReconnect := shouldReconnect h; tunnelId := tunnelId h;
     subdomain := subdomain h; publicUrl := publicUrl h; httpProxy := httpProxy h;
     heartbeatInterval := heartbeatInterval h; reconnectTimeout := reconnectTimeout h;
     localServicePingInterval := localServicePingInterval h |}.

Definition set_shouldReconnect (x : bool) (h : t) : t :=
  {| socket := socket h; options := options h; isConnected := isConnected h;
     shouldReconnect := x; tunnelId := tunnelId h;
     subdomain := subdomain h; publicUrl := publicUrl h; httpProxy := httpProxy h;
     heartbeatInterval := heartbeatInterval h; reconnectTimeout := reconnectTimeout h;
     localServicePingInterval := localServicePingInterval h |}.

Definition set_identity (tid sub url : option string) (h : t) : t :=
  {| socket := socket h; options := options h; isConnected := isConnected h;
     shouldReconnect := shouldReconnect h; tunnelId := tid;
     subdomain := sub; publicUrl := url; httpProxy := httpProxy h;
     heartbeatInterval := heartbeatInterval h; reconnectTimeout := reconnectTimeout h;
     localServicePingInterval := localServicePingInterval h |}.

Definition set_heartbeatInterval (x : option nat) (h : t) : t :=
  {| socket := socket h; options := options h; isConnected := isConnected h;
     shouldReconnect := shouldReconnect h; tunnelId := tunnelId h;
     subdomain := subdomain h; publicUrl := publicUrl h; httpProxy := httpProxy h;
     heartbeatInterval := x; reconnectTimeout := reconnectTimeout h;
     localServicePingInterval := localServicePingInterval h |}.

Definition set_reconnectTimeout (x : option nat) (h : t) : t :=
  {| socket := socket h; options := options h; isConnected := isConnected h;
     shouldReconnect := shouldReconnect h; tunnelId := tunnelId h;
     subdomain := subdomain h; publicUrl := publicUrl h; httpProxy := httpProxy h;
     heartbeatInterval := heartbeatInterval h; reconnectTimeout := x;
     localServicePingInterval := localServicePingInterval h |}.

Definition set_localServicePingInterval (x : option nat) (h : t) : t :=
  {| socket := socket h; options := options h; isConnected := isConnected h;
     shouldReconnect := shouldReconnect h; tunnelId := tunnelId h;
     subdomain := subdomain h; publicUrl := publicUrl h; httpProxy := httpProxy h;
     heartbeatInterval := heartbeatInterval h; reconnectTimeout := reconnectTimeout h;
     localServicePingInterval := x |}.
End Handler.

Record Machine := {
  (** the [MessageHandlerService] object *)
  self : Handler.t;
  (** frames handed to [socket.emit], oldest first *)
  emitted : list Emitted.t;
  (** requests handed to axios, oldest first *)
  sent : list AxiosRequestConfig.t;
  (** armed timers *)
  timers : list Timer.t;
  nextTimer : nat;
  (** number of [Date.now()] readings taken *)
  clockReads : nat;
  (** calls of the [resolve] and [reject] callbacks of [connect()] *)
  settled : list Settlement;
  (** set by [process.exit] *)
  exitCode : option Z
}.

Definition M (A : Type) : Type := Machine -> A * Machine.

#[global] Instance M_ret : MRet M := fun A a m => (a, m).
#[global] Instance M_bind : MBind M :=
  fun A B f c m => let '(a, m') := c m in f a m'.

Definition execM {A : Type} (c : M A) (m : Machine) : Machine := snd (c m).

Definition getSelf : M Handler.t := fun m => (self m, m).

Definition modifySelf (f : Handler.t -> Handler.t) : M unit := fun m =>
  (tt, {| self := f (self m); emitted := emitted m; sent := sent m;
          timers := timers m; nextTimer := nextTimer m;
          clockReads := clockReads m; settled := settled m;
          exitCode := exitCode m |}).

(** [Date.now()] *)
Definition Date_now (E : Env) : M Z := fun m =>
  (dateNow E (clockReads m),
   {| self := self m; emitted := emitted m; sent := sent m;
      timers := timers m; nextTimer := nextTimer m;
      clockReads := S (clockReads m); settled := settled m;
      exitCode := exitCode m |}).

(** [socket?.emit(event, data)] *)
Definition emit (socket : option nat) (event : string) (data : TunnelMessage.t) : M unit :=
  fun m =>
    match socket with
    | None => (tt, m)
    | Some s =>
        (tt, {| self := self m;
                emitted := emitted m ++ [{| Emitted.socket := s; Emitted.event := event;
                                            Emitted.data := data |}];
                sent := sent m; timers := timers m; nextTimer := nextTimer m;
                clockReads := clockReads m; settled := settled m;
                exitCode := exitCode m |})
    end.

(** [await axios(config)] *)
Definition callAxios (E : Env) (config : AxiosRequestConfig.t) : M AxiosOutcome := fun m =>
  (axios E (List.length (sent m)) config,
   {| self := self m; emitted := emitted m; sent := sent m ++ [config];
      timers := timers m; nextTimer := nextTimer m;
      clockReads := clockReads m; settled := settled m;
      exitCode := exitCode m |}).

(** [setTimeout] ([repeats = false]) and [setInterval] ([repeats = true]):
    the handle is the identity of the armed timer. *)
Definition armTimer (repeats : bool) (callback : Callback) (delay : Z) : M nat := fun m =>
  (nextTimer m,
   {| self := self m; emitted := emitted m; sent := sent m;
      timers := timers m ++ [{| Timer.id := nextTimer m; Timer.delay := delay;
                                Timer.repeats := repeats; Timer.callback := callback |}];
      nextTimer := S (nextTimer m);
      clockReads := clockReads m; settled := settled m;
      exitCode := exitCode m |}).

Definition setTimeout := armTimer false.
Definition setInterval := armTimer true.

Definition dropTimer (id : nat) (ts : list Timer.t) : list Timer.t :=
  List.filter (fun t => negb (Nat.eqb (Timer.id t) id)) ts.

(** [clearTimeout] and [clearInterval] *)
Definition clearTimer (id : nat) : M unit := fun m =>
  (tt, {| self := self m; emitted := emitted m; sent := sent m;
          timers := dropTimer id (timers m); nextTimer := nextTimer m;
          clockReads := clockReads m; settled := settled m;
          exitCode := exitCode m |}).

Definition settle (s : Settlement) : M unit := fun m =>
  (tt, {| self := self m; emitted := emitted m; sent := sent m;
          timers := timers m; nextTimer := nextTimer m;
          clockReads := clockReads m; settled := settled m ++ [s];
          exitCode := exitCode m |}).

(** [process.exit(code)] *)
Definition processExit (code : Z) : M unit := fun m =>
  (tt, {| self := self m; emitted := emitted m; sent := sent m;
          timers := timers m; nextTimer := nextTimer m;
          clockReads := clockReads m; settled := settled m;
          exitCode := Some code |}).

(** ** [utils/utils.ts] *)

Module Utils.

(** [createMessage]: the payload, the tag and the time of creation.
    [serializeMessage] and [parseMessage] are [JSON.stringify] and
    [JSON.parse]; frames are kept in decoded form, an absent optional field
    being a field that [JSON.stringify] leaves out. *)
Definition createMessage (E : Env) (type : MessageType) (payload : Payload)
  : M TunnelMessage.t :=
  now ← Date_now E;
  mret {| TunnelMessage.type := type; TunnelMessage.timestamp := now;
          TunnelMessage.payload := payload |}.

(** The object literal that [sendRequestLog] passes to [createMessage]. *)
Definition requestLog (tunnelId publicUrl : string) (requestMessage : RequestMessage.t)
    (statusCode responseTime : Z) (errorMessage : option string)
  : RequestLogMessage.t :=
  let headers := RequestMetadata.headers (RequestMessage.metadata requestMessage) in
  let userAgent := headers !! "user-agent" in
  let fallback := HString (if Js.truthy publicUrl then publicUrl else "unknown") in
  let host :=
    match headers !! "host" with
    | Some v => if truthyValue v then v else fallback
    | None => fallback
    end in
  {| RequestLogMessage.tunnelId := tunnelId;
     RequestLogMessage.method :=
       RequestMetadata.method (RequestMessage.metadata requestMessage);
     RequestLogMessage.host := host;
     RequestLogMessage.path :=
       RequestMetadata.path (RequestMessage.metadata requestMessage);
     RequestLogMessage.statusCode := statusCode;
     RequestLogMessage.responseTime := responseTime;
     RequestLogMessage.userAgent := userAgent;
     RequestLogMessage.ipAddress := headers !! "x-forwarded-for";
     RequestLogMessage.errorMessage := errorMessage |}.

Definition sendRequestLog (E : Env) (socket : option nat) (tunnelId publicUrl : string)
    (requestMessage : RequestMessage.t) (statusCode responseTime : Z)
    (errorMessage : option string) : M unit :=
  if negb (Js.truthy tunnelId) then mret tt
  else
    logMessage ← createMessage E REQUEST_LOG
      (RequestLogPayload
         (requestLog tunnelId publicUrl requestMessage statusCode responseTime
            errorMessage));
    emit socket "message" logMessage.

Definition sendConnectMessage (E : Env) (options : TunnelClientOptions.t)
    (socket : option nat) : M unit :=
  connectMessage ← createMessage E CONNECT
    (ConnectPayload (TunnelClientOptions.token options)
       (Some (TunnelClientOptions.subdomain options))
       (AGENT_VERSION E)
       (Some (TunnelClientOptions.localPort options))
       (Some 0%Z));
  emit socket "message" connectMessage.

(** [fixPublicUrl].  No operation of the body throws on string arguments, so
    the [catch] branch is not reachable. *)
Definition fixPublicUrl (url subdomain : string) (options : TunnelClientOptions.t)
  : string :=
  if Js.test_localhost url then url
  else
    let fixedUrl := Js.stripTrailingPort (Js.stripTldPorts url) in
    let serverDomain := Js.matchServer (TunnelClientOptions.serverUrl options) in
    let fixedUrl :=
      match serverDomain with
      | Some d =>
          if Js.truthy d && Js.truthy subdomain && negb (Js.includes fixedUrl d)
          then
            let protocol :=
              if Js.startsWith (TunnelClientOptions.serverUrl options) "https://"
              then "https://" else "http://" in
            protocol +:+ subdomain +:+ d
          else fixedUrl
      | None => fixedUrl
      end in
    Js.forceHttps fixedUrl.

End Utils.

(** ** [services/http-proxy.service.ts] *)

Module HttpProxy.

Definition excludeHeaders : list string :=
  ["host"; "connection"; "transfer-encoding"; "content-length"].

Definition excluded (key : string) : bool :=
  bool_decide (Js.toLowerCase key ∈ excludeHeaders).

Definition filterHeaders (headers : Headers) : Headers :=
  filter (fun kv => excluded (fst kv) = false) headers.

(** The argument of the [axios] call. *)
Definition requestConfig (this : HttpProxyObject.t) (request : ProxyRequest.t)
  : AxiosRequestConfig.t :=
  let queryString :=
    if Js.truthy (ProxyRequest.query request)
    then "?" +:+ ProxyRequest.query request else "" in
  let url :=
    "http://localhost:" +:+ pretty (HttpProxyObject.localPort this)
      +:+ ProxyRequest.path request +:+ queryString in
  {| AxiosRequestConfig.method := ProxyRequest.method request;
     AxiosRequestConfig.url := url;
     AxiosRequestConfig.headers := filterHeaders (ProxyRequest.headers request);
     AxiosRequestConfig.data :=
       if (0 <? List.length (ProxyRequest.body request))%nat
       then Some (ProxyRequest.body request) else None;
     AxiosRequestConfig.responseType := "arraybuffer";
     AxiosRequestConfig.maxRedirects := 0 |}.

(** The [catch] branch: what is thrown to the caller. *)
Definition mapError (this : HttpProxyObject.t) (error : Thrown) : Thrown :=
  match error with
  | AxiosError (Some code) _ =>
      if String.eqb code "ECONNREFUSED" then
        PlainError ("Cannot connect to local service on port "
                      +:+ pretty (HttpProxyObject.localPort this)
                      +:+ ". Is your service running?")
      else if String.eqb code "ETIMEDOUT" || String.eqb code "ECONNABORTED" then
        PlainError "Request to local service timed out"
      else error
  | _ => error
  end.

(** [forwardRequest]: [inl] is a thrown value, [inr] the returned record. *)
Definition forwardRequest (E : Env) (this : HttpProxyObject.t) (request : ProxyRequest.t)
  : M (Thrown + ProxyResponse.t) :=
  response ← callAxios E (requestConfig this request);
  match response with
  | Responded status statusText _ data =>
      mret (inr {| ProxyResponse.statusCode := status;
                   ProxyResponse.statusMessage := statusText;
                   ProxyResponse.headers := filterHeaders (ProxyRequest.headers request);
                   ProxyResponse.body := data |})
  | Threw error => mret (inl (mapError this error))
  end.

End HttpProxy.

(** ** [services/message-handler.service.ts] *)

Module MessageHandlerService.

(** The constructor. *)
Definition new (socket : nat) (options : TunnelClientOptions.t) : Handler.t :=
  {| Handler.socket := socket; Handler.options := options;
     Handler.isConnected := false; Handler.shouldReconnect := true;
     Handler.tunnelId := None; Handler.subdomain := None; Handler.publicUrl := None;
     Handler.httpProxy :=
       Some {| HttpProxyObject.localPort := TunnelClientOptions.localPort options |};
     Handler.heartbeatInterval := None; Handler.reconnectTimeout := None;
     Handler.localServicePingInterval := None |}.

Definition getIsConnected : M bool := this ← getSelf; mret (Handler.isConnected this).

Definition setIsConnected (connected : bool) : M unit :=
  modifySelf (Handler.set_isConnected connected).

Definition updateSocket (socket : nat) : M unit :=
  modifySelf (Handler.set_socket socket).

(** Truthiness of a [string | null] field. *)
Definition truthyField (x : option string) : bool :=
  match x with
  | Some s => Js.truthy s
  | None => false
  end.

(** [!!x ? x : ''] *)
Definition orEmpty (x : option string) : string :=
  match x with
  | Some s => if Js.truthy s then s else ""
  | None => ""
  end.

Definition handleConnect (E : Env) : M unit :=
  connected ← getIsConnected;
  if negb connected then
    this ← getSelf;
    Utils.sendConnectMessage E (Handler.options this) (Some (Handler.socket this))
  else mret tt.

Definition sendLocalServicePing (E : Env) (connected : bool) : M unit :=
  this ← getSelf;
  match Handler.tunnelId this with
  | Some tunnelId =>
      if Js.truthy tunnelId then
        pingMessage ← Utils.createMessage E LOCAL_SERVICE_PING
          (LocalServicePingPayload tunnelId connected);
        this ← getSelf;
        emit (Some (Handler.socket this)) "local_service" pingMessage
      else mret tt
  | None => mret tt
  end.

Definition pingRequest : ProxyRequest.t :=
  {| ProxyRequest.method := "HEAD"; ProxyRequest.path := "/";
     ProxyRequest.query := "";
     ProxyRequest.headers := {[ "User-Agent" := HString "Tunnel-Agent-Ping" ]};
     ProxyRequest.body := bufferFromString "" |}.

(** The test of the [catch] branch of [pingLocalService]. *)
Definition isDownError (error : Thrown) : bool :=
  instanceofError error
  && (Js.includes (errorMessageOf error) "ECONNREFUSED"
      || Js.includes (errorMessageOf error) "Cannot connect to local service"
      || Js.includes (errorMessageOf error) "ETIMEDOUT").

Definition pingLocalService (E : Env) : M unit :=
  this ← getSelf;
  match Handler.httpProxy this with
  | Some httpProxy =>
      if truthyField (Handler.tunnelId this) then
        r ← HttpProxy.forwardRequest E httpProxy pingRequest;
        match r with
        | inr _ => sendLocalServicePing E true
        | inl error =>
            if isDownError error then sendLocalServicePing E false else mret tt
        end
      else mret tt
  | None => mret tt
  end.

Definition startHeartbeat : M unit :=
  handle ← setInterval HeartbeatTick 30000;
  modifySelf (Handler.set_heartbeatInterval (Some handle)).

(** The callback of the heartbeat interval. *)
Definition heartbeatTick (E : Env) : M unit :=
  connected ← getIsConnected;
  if (connected : bool) then
    heartbeatMessage ← Utils.createMessage E HEARTBEAT EmptyPayload;
    this ← getSelf;
    emit (Some (Handler.socket this)) "message" heartbeatMessage
  else mret tt.

Definition startLocalServicePing (E : Env) : M unit :=
  pingLocalService E;;
  handle ← setInterval LocalServicePingTick 5000;
  modifySelf (Handler.set_localServicePingInterval (Some handle)).

Definition handleConnectAck (E : Env) (message : ConnectAckMessage.t) : M unit :=
  this ← getSelf;
  let publicUrl :=
    Utils.fixPublicUrl (ConnectAckMessage.publicUrl message)
      (ConnectAckMessage.subdomain message) (Handler.options this) in
  modifySelf (Handler.set_identity (Some (ConnectAckMessage.tunnelId message))
                (Some (ConnectAckMessage.subdomain message)) (Some publicUrl));;
  startHeartbeat;;
  startLocalServicePing E.

Definition badGateway (streamId : string) : Payload :=
  ResponsePayload streamId
    {| ResponseMetadata.statusCode := 502;
       ResponseMetadata.statusMessage := "Bad Gateway";
       ResponseMetadata.headers := {[ "content-type" := HString "text/plain" ]} |}
    (Base64.encode (bufferFromString "Error forwarding request to local service")).

(** The object literal that [handleRequest] passes to the forwarder. *)
Definition proxyRequest (E : Env) (requestMessage : RequestMessage.t) : ProxyRequest.t :=
  let metadata := RequestMessage.metadata requestMessage in
  {| ProxyRequest.method := RequestMetadata.method metadata;
     ProxyRequest.path := RequestMetadata.path metadata;
     ProxyRequest.query := RequestMetadata.query metadata;
     ProxyRequest.headers := RequestMetadata.headers metadata;
     ProxyRequest.body := bufferFromBase64 E (RequestMessage.body requestMessage) |}.

(** [handleRequest].  The [try] block yields the value of the outer
    [statusCode] at its end; the [finally] block runs in every case, also
    after the early [return].  The outer [errorMessage] is declared and never
    assigned: the [catch] block declares a constant of the same name for the
    frame it sends. *)
Definition handleRequest (E : Env) (requestMessage : RequestMessage.t) : M unit :=
  startTime ← Date_now E;
  let statusCode := 502%Z in
  let errorMessage : option string := None in
  this ← getSelf;
  statusCode ←
    match Handler.httpProxy this with
    | None => mret statusCode
    | Some httpProxy =>
        r ← HttpProxy.forwardRequest E httpProxy (proxyRequest E requestMessage);
        match r with
        | inr response =>
            let statusCode := ProxyResponse.statusCode response in
            responseMessage ← Utils.createMessage E RESPONSE
              (ResponsePayload (RequestMessage.streamId requestMessage)
                 {| ResponseMetadata.statusCode := ProxyResponse.statusCode response;
                    ResponseMetadata.statusMessage := ProxyResponse.statusMessage response;
                    ResponseMetadata.headers := ProxyResponse.headers response |}
                 (Base64.encode (ProxyResponse.body response)));
            this ← getSelf;
            emit (Some (Handler.socket this)) "message" responseMessage;;
            mret statusCode
        | inl error =>
            errorMessage' ← Utils.createMessage E RESPONSE
              (badGateway (RequestMessage.streamId requestMessage));
            this ← getSelf;
            emit (Some (Handler.socket this)) "message" errorMessage';;
            mret statusCode
        end
    end;
  now ← Date_now E;
  let responseTime := (now - startTime)%Z in
  this ← getSelf;
  Utils.sendRequestLog E (Some (Handler.socket this))
    (orEmpty (Handler.tunnelId this)) (orEmpty (Handler.publicUrl this))
    requestMessage statusCode responseTime errorMessage.

Definition handleHeartbeat (E : Env) : M unit :=
  ackMessage ← Utils.createMessage E HEARTBEAT_ACK EmptyPayload;
  this ← getSelf;
  emit (Some (Handler.socket this)) "message" ackMessage.

(** [if (handle) { clear(handle); field = null }] *)
Definition release (handle : option nat) (reset : Handler.t -> Handler.t) : M unit :=
  match handle with
  | Some id => clearTimer id;; modifySelf reset
  | None => mret tt
  end.

(** Truthiness of [options.reconnect]. *)
Definition reconnectEnabled (options : TunnelClientOptions.t) : bool :=
  match TunnelClientOptions.reconnect options with
  | Some b => b
  | None => false
  end.

Definition handleDisconnect : M unit :=
  modifySelf (Handler.set_isConnected false);;
  this ← getSelf;
  release (Handler.heartbeatInterval this) (Handler.set_heartbeatInterval None);;
  this ← getSelf;
  release (Handler.localServicePingInterval this)
    (Handler.set_localServicePingInterval None);;
  this ← getSelf;
  if Handler.shouldReconnect this && reconnectEnabled (Handler.options this) then
    handle ← setTimeout (ReconnectTick 0) 5000;
    modifySelf (Handler.set_reconnectTimeout (Some handle))
  else mret tt.

Definition destroy : M unit :=
  modifySelf (Handler.set_shouldReconnect false);;
  this ← getSelf;
  release (Handler.heartbeatInterval this) (Handler.set_heartbeatInterval None);;
  this ← getSelf;
  release (Handler.localServicePingInterval this)
    (Handler.set_localServicePingInterval None);;
  this ← getSelf;
  release (Handler.reconnectTimeout this) (Handler.set_reconnectTimeout None).

Definition maxRetries : Z := 10.
Definition baseDelay : Z := 5000.
Definition maxDelay : Z := 60000.

(** [attemptReconnect] up to the call of [connectFn]. *)
Definition attemptReconnect_begin : M unit :=
  this ← getSelf;
  release (Handler.reconnectTimeout this) (Handler.set_reconnectTimeout None).

(** [attemptReconnect] from the settlement of [await this.connectFn()]. *)
Definition attemptReconnect_resume (retryCount : Z) (connected : Settlement) : M unit :=
  match connected with
  | Resolved => mret tt
  | Rejected _ =>
      this ← getSelf;
      if (retryCount <? maxRetries - 1)%Z && Handler.shouldReconnect this then
        let delay := Z.min (baseDelay * 2 ^ retryCount) maxDelay in
        handle ← setTimeout (ReconnectTick (retryCount + 1)) delay;
        modifySelf (Handler.set_reconnectTimeout (Some handle))
      else processExit 1
  end.

Definition attemptReconnect (retryCount : Z) (connected : Settlement) : M unit :=
  attemptReconnect_begin;;
  attemptReconnect_resume retryCount connected.

End MessageHandlerService.

(** ** [socketIO/socket-handler.ts] *)

Module SocketIOHandler.

Record t := {
  socket : nat;
  options : TunnelClientOptions.t
}.

(** What arrives on the [message] event: JSON text that parses to a frame,
    or text on which [JSON.parse] throws. *)
Inductive Wire :=
| Json (message : TunnelMessage.t)
| Malformed.

Definition parseMessage (data : Wire) : Thrown + TunnelMessage.t :=
  match data with
  | Json message => inr message
  | Malformed => inl (PlainError "Unexpected token")
  end.

(** [handleMessage].  The casts [message as ConnectAckMessage] and
    [message as RequestMessage] are read on frames that carry the fields of
    their tag; a frame that does not is outside the declared types and is
    left alone.  The [ERROR] and [default] branches only write to the
    console. *)
Definition handleMessage (E : Env) (message : TunnelMessage.t) : M unit :=
  match TunnelMessage.type message with
  | CONNECT => MessageHandlerService.handleConnect E
  | CONNECT_ACK =>
      match TunnelMessage.payload message with
      | ConnectAckPayload ack => MessageHandlerService.handleConnectAck E ack
      | _ => mret tt
      end
  | REQUEST =>
      match TunnelMessage.payload message with
      | RequestPayload request => MessageHandlerService.handleRequest E request
      | _ => mret tt
      end
  | ERROR => mret tt
  | _ => mret tt
  end.

(** The listener of the [connect] event. *)
Definition onConnect (E : Env) (this : t) : M unit :=
  Utils.sendConnectMessage E (options this) (Some (socket this)).

(** The listener of the [message] event. *)
Definition onMessage (E : Env) (this : t) (data : Wire) : M unit :=
  match parseMessage data with
  | inl _ => mret tt
  | inr message =>
      handleMessage E message;;
      connected ← MessageHandlerService.getIsConnected;
      if (bool_decide (TunnelMessage.type message = CONNECT)
          || bool_decide (TunnelMessage.type message = CONNECT_ACK))
         && negb connected
      then MessageHandlerService.setIsConnected true;; settle Resolved
      else mret tt
  end.

(** The listener of the [disconnect] event. *)
Definition onDisconnect : M unit := MessageHandlerService.handleDisconnect.

(** The listener of the [connect_error] event. *)
Definition onConnectError (error : Thrown) : M unit :=
  connected ← MessageHandlerService.getIsConnected;
  if negb connected then settle (Rejected error) else mret tt.

End SocketIOHandler.

(** ** Timers coming due *)

Module EventLoop.

Definition findTimer (id : nat) (ts : list Timer.t) : option Timer.t :=
  List.find (fun t => Nat.eqb (Timer.id t) id) ts.

(** [connected] is the settlement of [connectFn()] for a reconnection tick. *)
Definition runCallback (E : Env) (callback : Callback) (connected : Settlement) : M unit :=
  match callback with
  | HeartbeatTick => MessageHandlerService.heartbeatTick E
  | LocalServicePingTick => MessageHandlerService.pingLocalService E
  | ReconnectTick retryCount =>
      MessageHandlerService.attemptReconnect retryCount connected
  end.

(** The armed timer [id] comes due.  Nothing runs once the process has
    exited; a timeout is disarmed by firing, an interval stays armed. *)
Definition fire (E : Env) (id : nat) (connected : Settlement) : M unit := fun m =>
  match exitCode m with
  | Some _ => (tt, m)
  | None =>
      match findTimer id (timers m) with
      | None => (tt, m)
      | Some t =>
          ((if Timer.repeats t then mret tt else clearTimer id);;
           runCallback E (Timer.callback t) connected) m
      end
  end.

(** The timer held in [reconnectTimeout], when it is armed. *)
Definition pendingReconnect (m : Machine) : option Timer.t :=
  match Handler.reconnectTimeout (self m) with
  | Some id => findTimer id (timers m)
  | None => None
  end.

(** The reconnection timer comes due and [connectFn()] rejects. *)
Definition failedAttempt (E : Env) (error : Thrown) : M unit :=
  this ← getSelf;
  match Handler.reconnectTimeout this with
  | Some id => fire E id (Rejected error)
  | None => mret tt
  end.

Fixpoint failedAttempts (E : Env) (error : Thrown) (k : nat) : M unit :=
  match k with
  | O => mret tt
  | S k' => failedAttempt E error;; failedAttempts E error k'
  end.

(** Timer handles are fresh: every armed timer was numbered before
    [nextTimer]. *)
Definition timersFresh (m : Machine) : Prop :=
  Forall (fun t => (Timer.id t < nextTimer m)%nat) (timers m).

End EventLoop.

(** A frame as it is handed to [socket.emit]. *)
Definition frame (socket : nat) (event : string) (type : MessageType) (timestamp : Z)
    (payload : Payload) : Emitted.t :=
  {| Emitted.socket := socket; Emitted.event := event;
     Emitted.data := {| TunnelMessage.type := type;
                        TunnelMessage.timestamp := timestamp;
                        TunnelMessage.payload := payload |} |}.

Definition frameType (e : Emitted.t) : MessageType :=
  TunnelMessage.type (Emitted.data e).

(** ** Scenarios: concrete environments, sessions and frames *)

Module Scenario.

Definition options : TunnelClientOptions.t :=
  {| TunnelClientOptions.serverUrl := "https://tunnl.fit";
     TunnelClientOptions.localPort := 3000;
     TunnelClientOptions.subdomain := "demo";
     TunnelClientOptions.token := Some "tok";
     TunnelClientOptions.reconnect := Some true |}.

Definition clock (n : nat) : Z := (1700000000000 + 7 * Z.of_nat n)%Z.

(** An environment in which every axios call has the given outcome. *)
Definition env (outcome : AxiosOutcome) : Env :=
  {| dateNow := clock;
     axios := fun _ _ => outcome;
     bufferFromBase64 := fun _ => [];
     NODE_ENV := None;
     ENV_AGENT_VERSION := None;
     ENV_TUNNEL_SERVER_URL := None |}.

(** The local service answers [200 OK] with its own headers. *)
Definition answering : Env :=
  env (Responded 200 "OK" {[ "content-type" := HString "text/html" ]}
         (bufferFromString "hello")).

(** Nothing listens on the local port. *)
Definition refusing : Env :=
  env (Threw (AxiosError (Some "ECONNREFUSED") "connect ECONNREFUSED 127.0.0.1:3000")).

(** The connection to the local service times out. *)
Definition timingOut : Env :=
  env (Threw (AxiosError (Some "ETIMEDOUT") "connect ETIMEDOUT 127.0.0.1:3000")).

Definition machineOf (this : Handler.t) : Machine :=
  {| self := this; emitted := []; sent := []; timers := []; nextTimer := 0;
     clockReads := 0; settled := []; exitCode := None |}.

(** A handler as the constructor leaves it. *)
Definition fresh : Machine := machineOf (MessageHandlerService.new 1 options).

(** A session whose identity was set by a [CONNECT_ACK]. *)
Definition established : Machine :=
  machineOf
    (Handler.set_isConnected true
       (Handler.set_identity (Some "T1") (Some "demo") (Some "https://demo.tunnl.fit")
          (MessageHandlerService.new 1 options))).

Definition request : RequestMessage.t :=
  {| RequestMessage.streamId := "S";
     RequestMessage.tunnelId := "T1";
     RequestMessage.metadata :=
       {| RequestMetadata.method := "GET";
          RequestMetadata.path := "/x";
          RequestMetadata.query := "a=1";
          RequestMetadata.headers :=
            {[ "host" := HString "demo.tunnl.fit" ]}
            ∪ {[ "user-agent" := HString "curl/8" ]} |};
     RequestMessage.body := "" |}.

Definition connectFrame : TunnelMessage.t :=
  {| TunnelMessage.type := CONNECT;
     TunnelMessage.timestamp := 1700000000000;
     TunnelMessage.payload := ConnectPayload None None (Some "1.0.0") None None |}.

End Scenario.

(** ** [services/tunnel-client.service.ts]: [disconnect] *)

Module TunnelClient.

(** The fields of [TunnelClient]; [messageHandler] tells whether the
    handler object exists (it is created by the first [connect()]). *)
Record t := {
  socket : option nat;
  options : TunnelClientOptions.t;
  messageHandler : bool
}.


End TunnelClient.

(** ** Reconnection attempts that succeed *)

Module Session.

(** The reconnection timer comes due and [connectFn()] resolves. *)
Definition succeededAttempt (E : Env) : M unit :=
  this ← getSelf;
  match Handler.reconnectTimeout this with
  | Some id => EventLoop.fire E id Resolved
  | None => mret tt
  end.

End Session.

(** ** The state of a reconnection episode *)

Module Episode.

(** The delay of the timer that is armed once [j] attempts have failed. *)
Definition armedDelay (j : nat) : Z :=
  match j with
  | O => 5000
  | S i => Z.min (5000 * 2 ^ Z.of_nat i) 60000
  end.

Definition reconnectTimer (id j : nat) : Timer.t :=
  {| Timer.id := id; Timer.delay := armedDelay j; Timer.repeats := false;
     Timer.callback := ReconnectTick (Z.of_nat j) |}.

(** [j] attempts have failed and the next one is armed; [others] are the
    timers that were armed before the episode. *)
Definition waiting (others : list Timer.t) (j : nat) (m : Machine) : Prop :=
  exitCode m = None
  /\ Handler.shouldReconnect (self m) = true
  /\ exists id,
       Handler.reconnectTimeout (self m) = Some id
       /\ timers m = (others ++ [reconnectTimer id j])%list
       /\ Forall (fun t => (Timer.id t < id)%nat) others
       /\ (id < nextTimer m)%nat.

End Episode.

(** * Properties *)

(** ** Strings *)

Section StringFacts.

Lemma startsWith_dropPrefix (p s : string) :
  Js.startsWith s p = true <-> exists r, Js.dropPrefix p s = Some r.
Proof.
  revert s. induction p as [|c p IH]; intros s; simpl.
  - split; [intros _; exists s; reflexivity | intros _; reflexivity].
  - destruct s as [|d s]; [split; [discriminate | intros [r Hr]; discriminate]|].
    destruct (Ascii.eqb c d); [apply IH|].
    split; [discriminate | intros [r Hr]; discriminate].
Qed.

Lemma dropPrefix_app (p s : string) : Js.dropPrefix p (p +:+ s) = Some s.
Proof.
  induction p as [|c p IH]; simpl; [reflexivity|].
  rewrite Ascii.eqb_refl. exact IH.
Qed.

Lemma dropPrefix_eq (p s r : string) : Js.dropPrefix p s = Some r -> s = p +:+ r.
Proof.
  revert s. induction p as [|c p IH]; intros s; simpl.
  - intros [= ->]. reflexivity.
  - destruct s as [|d s]; [discriminate|].
    destruct (Ascii.eqb_spec c d) as [->|]; [|discriminate].
    intros H. rewrite (IH _ H). reflexivity.
Qed.

Lemma dropPrefix_length (p s r : string) :
  Js.dropPrefix p s = Some r -> String.length r <= String.length s.
Proof.
  revert s. induction p as [|c p IH]; intros s; simpl.
  - intros [= ->]. lia.
  - destruct s as [|d s]; [discriminate|].
    destruct (Ascii.eqb c d); [|discriminate].
    intros H. apply IH in H. simpl. lia.
Qed.

Lemma startsWith_app (p s : string) : Js.startsWith (p +:+ s) p = true.
Proof. apply startsWith_dropPrefix. exists s. apply dropPrefix_app. Qed.

Lemma startsWith_includes (s d : string) :
  Js.startsWith s d = true -> Js.includes s d = true.
Proof. intros H. destruct s; simpl; rewrite H; reflexivity. Qed.

Lemma includes_tail (c : ascii) (s d : string) :
  Js.includes s d = true -> Js.includes (String c s) d = true.
Proof. intros H. simpl. rewrite H. apply orb_true_r. Qed.

Lemma includes_app_r (a s d : string) :
  Js.includes s d = true -> Js.includes (a +:+ s) d = true.
Proof.
  intros H. induction a as [|c a IH]; [exact H|].
  apply includes_tail. exact IH.
Qed.

Lemma startsWith_refl (d : string) : Js.startsWith d d = true.
Proof.
  induction d as [|c d IH]; simpl; [reflexivity|].
  rewrite Ascii.eqb_refl. exact IH.
Qed.

Lemma includes_suffix (a d : string) : Js.includes (a +:+ d) d = true.
Proof.
  apply includes_app_r. destruct d as [|c d]; [reflexivity|].
  cbn [Js.includes]. rewrite startsWith_refl. reflexivity.
Qed.

(** The regular expression of the first step is a substring test. *)
Lemma test_localhost_includes (s : string) :
  Js.test_localhost s = Js.includes s "localhost" || Js.includes s "127.0.0.1".
Proof.
  induction s as [|c s IH].
  - reflexivity.
  - cbn [Js.test_localhost Js.includes]. rewrite IH.
    destruct (Js.startsWith (String c s) "localhost"),
             (Js.startsWith (String c s) "127.0.0.1"),
             (Js.includes s "localhost"), (Js.includes s "127.0.0.1");
      reflexivity.
Qed.

Lemma skipDigits_length (s : string) :
  String.length (Js.skipDigits s) <= String.length s.
Proof.
  induction s as [|c s IH]; simpl; [lia|].
  destruct (Js.isDigit c); simpl; lia.
Qed.

Lemma matchDigits_length (s rest : string) :
  Js.matchDigits s = Some rest -> String.length rest < String.length s.
Proof.
  destruct s as [|c s]; simpl; [discriminate|].
  destruct (Js.isDigit c); [|discriminate].
  intros [= <-]. pose proof (skipDigits_length s). lia.
Qed.

Lemma matchTld_length (alts : list string) (s t rest : string) :
  Js.matchTld alts s = Some (t, rest) -> String.length rest < String.length s.
Proof.
  induction alts as [|a alts IH]; simpl; [discriminate|].
  destruct (Js.dropPrefix a s) as [r|] eqn:Hr; [|exact IH].
  destruct (Js.matchDigits r) as [rest'|] eqn:Hd; [|exact IH].
  intros [= _ <-]. apply dropPrefix_length in Hr.
  apply matchDigits_length in Hd. lia.
Qed.

Lemma matchTldPort_length (s t rest : string) :
  Js.matchTldPort s = Some (t, rest) -> String.length rest < String.length s.
Proof.
  destruct s as [|c s]; [discriminate|].
  destruct c as [[] [] [] [] [] [] [] []]; try discriminate.
  cbn [Js.matchTldPort]. intros H. apply matchTld_length in H.
  cbn [String.length]. lia.
Qed.

(** The global replacement never runs out of fuel: any fuel that covers the
    length of the string gives the same result. *)
Lemma replaceTldPorts_fuel (n k : nat) (s : string) :
  String.length s <= n -> String.length s <= k ->
  Js.replaceTldPorts n s = Js.replaceTldPorts k s.
Proof.
  revert k s. induction n as [|n IH]; intros k s Hn Hk.
  - destruct s; [|simpl in Hn; lia]. destruct k; reflexivity.
  - destruct k as [|k].
    + destruct s; [reflexivity | simpl in Hk; lia].
    + destruct s as [|c s]; [reflexivity|].
      cbn [Js.replaceTldPorts].
      destruct (Js.matchTldPort (String c s)) as [[t rest]|] eqn:Hm.
      * apply matchTldPort_length in Hm. simpl in Hn, Hk, Hm.
        rewrite (IH k rest) by lia. reflexivity.
      * simpl in Hn, Hk. rewrite (IH k s) by lia. reflexivity.
Qed.

Lemma stripTldPorts_fuel (n : nat) (s : string) :
  String.length s <= n -> Js.replaceTldPorts n s = Js.stripTldPorts s.
Proof. intros H. apply replaceTldPorts_fuel; [exact H | lia]. Qed.

Lemma takeRun_noSep (s : string) : Js.noSep (Js.takeRun s) = true.
Proof.
  induction s as [|c s IH]; simpl; [reflexivity|].
  destruct (Js.notSep c) eqn:Hc; simpl; [|reflexivity].
  rewrite Hc. exact IH.
Qed.

Lemma matchRun_noSep (s d : string) :
  Js.matchRun s = Some d -> Js.noSep d = true /\ Js.truthy d = true.
Proof.
  destruct s as [|c s]; simpl; [discriminate|].
  destruct (Js.notSep c) eqn:Hc; [|discriminate].
  intros [= <-]. simpl. rewrite Hc, takeRun_noSep. split; reflexivity.
Qed.

Lemma matchServerAt_noSep (s d : string) :
  Js.matchServerAt s = Some d -> Js.noSep d = true /\ Js.truthy d = true.
Proof.
  unfold Js.matchServerAt.
  destruct (Js.dropPrefix "wss://" s) as [r1|].
  - destruct (Js.matchRun r1) eqn:H1; [intros [= <-]; eauto using matchRun_noSep|].
    destruct (Js.dropPrefix "ws://" s) as [r2|]; [|apply matchRun_noSep].
    destruct (Js.matchRun r2) eqn:H2; [intros [= <-]; eauto using matchRun_noSep|].
    apply matchRun_noSep.
  - destruct (Js.dropPrefix "ws://" s) as [r2|]; [|apply matchRun_noSep].
    destruct (Js.matchRun r2) eqn:H2; [intros [= <-]; eauto using matchRun_noSep|].
    apply matchRun_noSep.
Qed.

(** The captured server domain is a non-empty run without [:] and [/]. *)
Lemma matchServer_noSep (s d : string) :
  Js.matchServer s = Some d -> Js.noSep d = true /\ Js.truthy d = true.
Proof.
  induction s as [|c s IH]; cbn [Js.matchServer].
  - destruct (Js.matchServerAt "") eqn:H; [|discriminate].
    intros [= <-]. eauto using matchServerAt_noSep.
  - destruct (Js.matchServerAt (String c s)) eqn:H; [|exact IH].
    intros [= <-]. eauto using matchServerAt_noSep.
Qed.

Lemma forceHttps_idempotent (s : string) : Js.forceHttps (Js.forceHttps s) = Js.forceHttps s.
Proof.
  unfold Js.forceHttps at 2 3.
  destruct (Js.dropPrefix "http://" s) as [r|] eqn:H.
  - reflexivity.
  - unfold Js.forceHttps. rewrite H. reflexivity.
Qed.

Ltac walk_prefix :=
  repeat match goal with
  | H : Js.startsWith (String _ _) ?d = true |- _ =>
      destruct d as [|? ?]; cbn [Js.startsWith] in H
  | H : (if Ascii.eqb ?c ?x then _ else false) = true |- _ =>
      destruct (Ascii.eqb_spec c x); [subst c | discriminate H]
  | H : Js.noSep (String _ _) = true |- _ =>
      cbn in H; try discriminate H
  end.

(** Rewriting the scheme keeps every occurrence of a run without [:] and
    [/]: such a run lies inside [http] or after the scheme. *)
Lemma includes_forceHttps (d w : string) :
  Js.noSep d = true -> Js.includes w d = true -> Js.includes (Js.forceHttps w) d = true.
Proof.
  intros Hd Hw. unfold Js.forceHttps.
  destruct (Js.dropPrefix "http://" w) as [r|] eqn:Hr; [|exact Hw].
  apply dropPrefix_eq in Hr. subst w.
  cbv [String.append] in Hw. cbn [Js.includes] in Hw.
  repeat match goal with
  | H : _ || _ = true |- _ => apply orb_true_iff in H as [H|H]
  end;
  try (walk_prefix; reflexivity).
  apply (includes_app_r "https://"). exact Hw.
Qed.

(** Outside the localhost case the result already has its scheme forced. *)
Lemma fixPublicUrl_forced (url subdomain : string) (options : TunnelClientOptions.t) :
  Js.test_localhost url = false ->
  Js.forceHttps (Utils.fixPublicUrl url subdomain options)
  = Utils.fixPublicUrl url subdomain options.
Proof.
  intros H. unfold Utils.fixPublicUrl. rewrite H. apply forceHttps_idempotent.
Qed.

(** Outside the localhost case the result mentions the captured server
    domain whenever a subdomain is given. *)
Lemma fixPublicUrl_includes_domain (url subdomain d : string)
    (options : TunnelClientOptions.t) :
  Js.test_localhost url = false ->
  Js.matchServer (TunnelClientOptions.serverUrl options) = Some d ->
  Js.truthy subdomain = true ->
  Js.includes (Utils.fixPublicUrl url subdomain options) d = true.
Proof.
  intros H Hd Hs. unfold Utils.fixPublicUrl. rewrite H, Hd, Hs.
  destruct (matchServer_noSep _ _ Hd) as [Hsep Ht]. rewrite Ht.
  cbn [andb].
  destruct (Js.includes (Js.stripTrailingPort (Js.stripTldPorts url)) d) eqn:Hi;
    cbn [negb].
  - apply includes_forceHttps; assumption.
  - apply includes_forceHttps; [assumption|].
    destruct (Js.startsWith (TunnelClientOptions.serverUrl options) "https://").
    + apply (includes_suffix ("https://" +:+ subdomain)).
    + apply (includes_suffix ("http://" +:+ subdomain)).
Qed.

End StringFacts.

(** ** The public-URL normalizer *)

(** C2.  On the repair scenario [url = "http://demo.tunnl.fit3000:3000"],
    [subdomain = "demo."], [serverUrl = "https://tunnl.fit"], the server
    domain captured by the regular expression is ["https"], not
    ["tunnl.fit"]: the optional scheme group only knows [ws://] and
    [wss://].  The repaired string ["http://demo.tunnl.fit"] does not
    mention ["https"], so the URL is rebuilt from the captured text and the
    result is ["https://demo.https"], not ["https://demo.tunnl.fit"]. *)
Theorem fixPublicUrl_repair_scenario (port : Z) (requested : string)
    (tok : option string) (rec : option bool) :
  let options :=
    {| TunnelClientOptions.serverUrl := "https://tunnl.fit";
       TunnelClientOptions.localPort := port;
       TunnelClientOptions.subdomain := requested;
       TunnelClientOptions.token := tok;
       TunnelClientOptions.reconnect := rec |} in
  Js.matchServer (TunnelClientOptions.serverUrl options) = Some "https"
  /\ Js.stripTrailingPort (Js.stripTldPorts "http://demo.tunnl.fit3000:3000")
     = "http://demo.tunnl.fit"
  /\ Utils.fixPublicUrl "http://demo.tunnl.fit3000:3000" "demo." options
     = "https://demo.https"
  /\ Utils.fixPublicUrl "http://demo.tunnl.fit3000:3000" "demo." options
     <> "https://demo.tunnl.fit".
Proof.
  cbv zeta. repeat split; try reflexivity.
  vm_compute. discriminate.
Qed.

(** With a server URL written with the [wss://] scheme the same input is
    repaired to the expected public URL. *)
Example fixPublicUrl_repair_wss :
  Utils.fixPublicUrl "http://demo.tunnl.fit3000:3000" "demo."
    {| TunnelClientOptions.serverUrl := "wss://tunnl.fit";
       TunnelClientOptions.localPort := 3000;
       TunnelClientOptions.subdomain := "demo";
       TunnelClientOptions.token := None;
       TunnelClientOptions.reconnect := Some true |}
  = "https://demo.tunnl.fit".
Proof. reflexivity. Qed.

(** C7, as stated, fails: a URL that ends in two port suffixes loses one of
    them per pass, so the second pass changes the result of the first. *)
Lemma fixPublicUrl_not_idempotent :
  let options :=
    {| TunnelClientOptions.serverUrl := "https://tunnl.fit";
       TunnelClientOptions.localPort := 3000;
       TunnelClientOptions.subdomain := "demo";
       TunnelClientOptions.token := None;
       TunnelClientOptions.reconnect := Some true |} in
  let url := "https://demo.tunnl.fit:3000:3000" in
  Utils.fixPublicUrl url "demo" options = "https://demo.tunnl.fit:3000"
  /\ Utils.fixPublicUrl (Utils.fixPublicUrl url "demo" options) "demo" options
     = "https://demo.tunnl.fit"
  /\ Utils.fixPublicUrl (Utils.fixPublicUrl url "demo" options) "demo" options
     <> Utils.fixPublicUrl url "demo" options.
Proof.
  cbv zeta. repeat split; try reflexivity.
  vm_compute. discriminate.
Qed.

(** C7, amended.  An input that contains [localhost] or [127.0.0.1] is
    returned unchanged; and normalizing twice gives the result of
    normalizing once for every such input and for every input whose first
    result is left unchanged by the two port-stripping rewrites. *)
Theorem fixPublicUrl_idempotent_when_stripped (url subdomain : string)
    (options : TunnelClientOptions.t) :
  let once := Utils.fixPublicUrl url subdomain options in
  (Js.includes url "localhost" = true \/ Js.includes url "127.0.0.1" = true ->
   once = url)
  /\ ((Js.includes url "localhost" = true \/ Js.includes url "127.0.0.1" = true)
      \/ (Js.stripTldPorts once = once /\ Js.stripTrailingPort once = once) ->
      Utils.fixPublicUrl once subdomain options = once).
Proof.
  intros once.
  assert (Hlocal : Js.test_localhost url = true -> once = url).
  { intros H. unfold once, Utils.fixPublicUrl. rewrite H. reflexivity. }
  assert (Htest : Js.includes url "localhost" = true
                  \/ Js.includes url "127.0.0.1" = true ->
                  Js.test_localhost url = true).
  { rewrite test_localhost_includes. intros [->| ->].
    - reflexivity.
    - apply orb_true_r. }
  split; [intros H; apply Hlocal, Htest, H|].
  destruct (Js.test_localhost url) eqn:Hurl.
  - intros _. rewrite (Hlocal eq_refl).
    unfold Utils.fixPublicUrl. rewrite Hurl. reflexivity.
  - intros [H|[Htld Hport]]; [apply Htest in H; discriminate H|].
    pose proof (fixPublicUrl_forced url subdomain options Hurl) as Hforced.
    pose proof (fun d => fixPublicUrl_includes_domain url subdomain d options Hurl)
      as Hdomain.
    fold once in Hforced, Hdomain.
    unfold Utils.fixPublicUrl.
    destruct (Js.test_localhost once); [reflexivity|].
    rewrite Htld, Hport.
    destruct (Js.matchServer (TunnelClientOptions.serverUrl options)) as [d|] eqn:Hd;
      [|exact Hforced].
    destruct (Js.truthy d); [|exact Hforced].
    destruct (Js.truthy subdomain) eqn:Hs; [|exact Hforced].
    rewrite (Hdomain d eq_refl eq_refl). exact Hforced.
Qed.

Lemma fixPublicUrl_idempotent_when_stripped_witness :
  let options :=
    {| TunnelClientOptions.serverUrl := "wss://tunnl.fit";
       TunnelClientOptions.localPort := 3000;
       TunnelClientOptions.subdomain := "demo";
       TunnelClientOptions.token := None;
       TunnelClientOptions.reconnect := Some true |} in
  Utils.fixPublicUrl "http://localhost:3000" "demo." options = "http://localhost:3000"
  /\ Utils.fixPublicUrl
       (Utils.fixPublicUrl "http://demo.tunnl.fit3000:3000" "demo." options)
       "demo." options
     = Utils.fixPublicUrl "http://demo.tunnl.fit3000:3000" "demo." options.
Proof.
  intros options. split.
  - apply (proj1 (fixPublicUrl_idempotent_when_stripped
                    "http://localhost:3000" "demo." options)).
    left. reflexivity.
  - apply (proj2 (fixPublicUrl_idempotent_when_stripped
                    "http://demo.tunnl.fit3000:3000" "demo." options)).
    right. split; reflexivity.
Defined.

(** ** The forwarder *)

Lemma filterHeaders_lookup (headers : Headers) (key : string) :
  HttpProxy.filterHeaders headers !! key
  = if HttpProxy.excluded key then None else headers !! key.
Proof.
  unfold HttpProxy.filterHeaders.
  destruct (HttpProxy.excluded key) eqn:Hk.
  - apply map_lookup_filter_None. right. intros v _ Hv. simpl in Hv. congruence.
  - destruct (headers !! key) as [v|] eqn:Hv.
    + apply map_lookup_filter_Some. split; [exact Hv | exact Hk].
    + apply map_lookup_filter_None. left. exact Hv.
Qed.

(** The forwarder hands exactly one request to axios. *)
Lemma forwardRequest_sent (E : Env) (this : HttpProxyObject.t)
    (request : ProxyRequest.t) (m : Machine) :
  sent (execM (HttpProxy.forwardRequest E this request) m)
  = (sent m ++ [HttpProxy.requestConfig this request])%list.
Proof.
  unfold execM, HttpProxy.forwardRequest, mbind, M_bind, callAxios. simpl.
  destruct (axios E (List.length (sent m)) (HttpProxy.requestConfig this request));
    reflexivity.
Qed.

(** C6.  Whatever the casing of its keys, the header map of the request that
    the forwarder hands to axios has no key whose lowercase form is [host],
    [connection], [transfer-encoding] or [content-length]. *)
Theorem outbound_headers_filtered (E : Env) (this : HttpProxyObject.t)
    (request : ProxyRequest.t) (m : Machine) (key : string) :
  Js.toLowerCase key ∈ ["host"; "connection"; "transfer-encoding"; "content-length"] ->
  exists config,
    sent (execM (HttpProxy.forwardRequest E this request) m)
    = (sent m ++ [config])%list
    /\ AxiosRequestConfig.headers config !! key = None.
Proof.
  intros Hkey. exists (HttpProxy.requestConfig this request).
  split; [apply forwardRequest_sent|].
  cbn [HttpProxy.requestConfig AxiosRequestConfig.headers].
  rewrite filterHeaders_lookup. unfold HttpProxy.excluded.
  rewrite bool_decide_eq_true_2; [reflexivity | exact Hkey].
Qed.

Lemma outbound_headers_filtered_witness :
  let request :=
    {| ProxyRequest.method := "POST"; ProxyRequest.path := "/upload";
       ProxyRequest.query := "";
       ProxyRequest.headers :=
         {[ "Content-Length" := HString "5" ]} ∪ {[ "Accept" := HString "*/*" ]};
       ProxyRequest.body := bufferFromString "hello" |} in
  exists config,
    sent (execM (HttpProxy.forwardRequest Scenario.answering
                   {| HttpProxyObject.localPort := 3000 |} request)
            Scenario.established)
    = (sent Scenario.established ++ [config])%list
    /\ AxiosRequestConfig.headers config !! "Content-Length" = None.
Proof.
  intros request.
  apply (outbound_headers_filtered Scenario.answering
           {| HttpProxyObject.localPort := 3000 |} request Scenario.established
           "Content-Length").
  vm_compute. apply list_elem_of_In. right. right. right. left. reflexivity.
Defined.

(** Headers outside the exclusion list pass through unchanged. *)
Lemma outbound_headers_kept (this : HttpProxyObject.t) (request : ProxyRequest.t)
    (key : string) :
  Js.toLowerCase key ∉ ["host"; "connection"; "transfer-encoding"; "content-length"] ->
  AxiosRequestConfig.headers (HttpProxy.requestConfig this request) !! key
  = ProxyRequest.headers request !! key.
Proof.
  intros Hkey. cbn [HttpProxy.requestConfig AxiosRequestConfig.headers].
  rewrite filterHeaders_lookup. unfold HttpProxy.excluded.
  rewrite bool_decide_eq_false_2; [reflexivity | exact Hkey].
Qed.

(** ** Request dispatch *)

Ltac run_handler :=
  unfold execM, MessageHandlerService.handleRequest, HttpProxy.forwardRequest,
    Utils.sendRequestLog, Utils.createMessage, frame,
    mbind, M_bind, mret, M_ret, getSelf, Date_now, callAxios, emit;
  cbn.

(** What [handleRequest] emits when the axios call throws: the synthesized
    502 response, then the request log when the tunnel identifier is set. *)
Lemma handleRequest_failure (E : Env) (m : Machine) (requestMessage : RequestMessage.t)
    (httpProxy : HttpProxyObject.t) (error : Thrown) :
  Handler.httpProxy (self m) = Some httpProxy ->
  axios E (List.length (sent m))
    (HttpProxy.requestConfig httpProxy
       (MessageHandlerService.proxyRequest E requestMessage)) = Threw error ->
  let t0 := dateNow E (clockReads m) in
  let t1 := dateNow E (S (clockReads m)) in
  let t2 := dateNow E (S (S (clockReads m))) in
  let t3 := dateNow E (S (S (S (clockReads m)))) in
  let this := self m in
  emitted (execM (MessageHandlerService.handleRequest E requestMessage) m)
  = (emitted m
     ++ [frame (Handler.socket this) "message" RESPONSE t1
           (MessageHandlerService.badGateway (RequestMessage.streamId requestMessage))]
     ++ (if MessageHandlerService.truthyField (Handler.tunnelId this)
         then [frame (Handler.socket this) "message" REQUEST_LOG t3
                 (RequestLogPayload
                    (Utils.requestLog
                       (MessageHandlerService.orEmpty (Handler.tunnelId this))
                       (MessageHandlerService.orEmpty (Handler.publicUrl this))
                       requestMessage 502 (t2 - t0) None))]
         else []))%list.
Proof.
  intros Hproxy Haxios. run_handler. rewrite Hproxy. cbn. rewrite Haxios. cbn.
  destruct (Handler.tunnelId (self m)) as [[|c tid]|]; cbn;
    rewrite <- ?app_assoc; reflexivity.
Qed.

(** What [handleRequest] emits when the local service answers. *)
Lemma handleRequest_success (E : Env) (m : Machine) (requestMessage : RequestMessage.t)
    (httpProxy : HttpProxyObject.t) (status : Z) (statusText : string)
    (responseHeaders : Headers) (data : list Byte.byte) :
  Handler.httpProxy (self m) = Some httpProxy ->
  axios E (List.length (sent m))
    (HttpProxy.requestConfig httpProxy
       (MessageHandlerService.proxyRequest E requestMessage))
  = Responded status statusText responseHeaders data ->
  let t0 := dateNow E (clockReads m) in
  let t1 := dateNow E (S (clockReads m)) in
  let t2 := dateNow E (S (S (clockReads m))) in
  let t3 := dateNow E (S (S (S (clockReads m)))) in
  let this := self m in
  emitted (execM (MessageHandlerService.handleRequest E requestMessage) m)
  = (emitted m
     ++ [frame (Handler.socket this) "message" RESPONSE t1
           (ResponsePayload (RequestMessage.streamId requestMessage)
              {| ResponseMetadata.statusCode := status;
                 ResponseMetadata.statusMessage := statusText;
                 ResponseMetadata.headers :=
                   HttpProxy.filterHeaders
                     (RequestMetadata.headers (RequestMessage.metadata requestMessage)) |}
              (Base64.encode data))]
     ++ (if MessageHandlerService.truthyField (Handler.tunnelId this)
         then [frame (Handler.socket this) "message" REQUEST_LOG t3
                 (RequestLogPayload
                    (Utils.requestLog
                       (MessageHandlerService.orEmpty (Handler.tunnelId this))
                       (MessageHandlerService.orEmpty (Handler.publicUrl this))
                       requestMessage status (t2 - t0) None))]
         else []))%list.
Proof.
  intros Hproxy Haxios. run_handler. rewrite Hproxy. cbn. rewrite Haxios. cbn.
  destruct (Handler.tunnelId (self m)) as [[|c tid]|]; cbn;
    rewrite <- ?app_assoc; reflexivity.
Qed.

(** Every frame that [handleRequest] emits: at most one response, then the
    request log when the tunnel identifier is set. *)
Lemma handleRequest_emitted (E : Env) (m : Machine) (requestMessage : RequestMessage.t) :
  let this := self m in
  exists responses status elapsed t,
    emitted (execM (MessageHandlerService.handleRequest E requestMessage) m)
    = (emitted m ++ responses
       ++ (if MessageHandlerService.truthyField (Handler.tunnelId this)
           then [frame (Handler.socket this) "message" REQUEST_LOG t
                   (RequestLogPayload
                      (Utils.requestLog
                         (MessageHandlerService.orEmpty (Handler.tunnelId this))
                         (MessageHandlerService.orEmpty (Handler.publicUrl this))
                         requestMessage status elapsed None))]
           else []))%list
    /\ Forall (fun e => frameType e = RESPONSE) responses
    /\ List.length responses <= 1.
Proof.
  intros this.
  destruct (Handler.httpProxy (self m)) as [httpProxy|] eqn:Hproxy.
  - destruct (axios E (List.length (sent m))
                (HttpProxy.requestConfig httpProxy
                   (MessageHandlerService.proxyRequest E requestMessage)))
      as [status statusText responseHeaders data|error] eqn:Haxios.
    + eexists _, _, _, _. split; [|split].
      * apply (handleRequest_success E m requestMessage httpProxy _ _ _ _ Hproxy Haxios).
      * repeat constructor.
      * simpl. lia.
    + eexists _, _, _, _. split; [|split].
      * apply (handleRequest_failure E m requestMessage httpProxy _ Hproxy Haxios).
      * repeat constructor.
      * simpl. lia.
  - exists [], 502%Z,
      (dateNow E (S (clockReads m)) - dateNow E (clockReads m))%Z,
      (dateNow E (S (S (clockReads m)))).
    split; [|split]; [|constructor|simpl; lia].
    run_handler. rewrite Hproxy. cbn. subst this.
    destruct (Handler.tunnelId (self m)) as [[|c tid]|]; cbn;
      rewrite ?app_nil_r; reflexivity.
Qed.

(** X3.  The record returned by the forwarder when the local service answers:
    its [headers] field is computed from the request. *)
Lemma forwardRequest_response (E : Env) (this : HttpProxyObject.t)
    (request : ProxyRequest.t) (m : Machine) (status : Z) (statusText : string)
    (responseHeaders : Headers) (data : list Byte.byte) :
  axios E (List.length (sent m)) (HttpProxy.requestConfig this request)
  = Responded status statusText responseHeaders data ->
  fst (HttpProxy.forwardRequest E this request m)
  = inr {| ProxyResponse.statusCode := status;
           ProxyResponse.statusMessage := statusText;
           ProxyResponse.headers := HttpProxy.filterHeaders (ProxyRequest.headers request);
           ProxyResponse.body := data |}.
Proof.
  intros H. unfold HttpProxy.forwardRequest, mbind, M_bind, callAxios. cbn.
  rewrite H. reflexivity.
Qed.

(** C1.  The local service answers [200 OK] with the header
    [content-type: text/html] to a request that carried [host] and
    [user-agent].  The record returned by the forwarder and the metadata of
    the framed RESPONSE both carry the filtered request headers
    ([user-agent: curl/8]), not the headers of the response. *)
Theorem forwarder_returns_request_headers :
  let E := Scenario.answering in
  let m := Scenario.established in
  let httpProxy := {| HttpProxyObject.localPort := 3000 |} in
  let requestHeaders : Headers := {[ "user-agent" := HString "curl/8" ]} in
  let responseHeaders : Headers := {[ "content-type" := HString "text/html" ]} in
  axios E 0
    (HttpProxy.requestConfig httpProxy
       (MessageHandlerService.proxyRequest E Scenario.request))
  = Responded 200 "OK" responseHeaders (bufferFromString "hello")
  /\ fst (HttpProxy.forwardRequest E httpProxy
            (MessageHandlerService.proxyRequest E Scenario.request) m)
     = inr {| ProxyResponse.statusCode := 200;
              ProxyResponse.statusMessage := "OK";
              ProxyResponse.headers := requestHeaders;
              ProxyResponse.body := bufferFromString "hello" |}
  /\ List.filter (fun e => bool_decide (frameType e = RESPONSE))
       (emitted (execM (MessageHandlerService.handleRequest E Scenario.request) m))
     = [frame 1 "message" RESPONSE (Scenario.clock 1)
          (ResponsePayload "S"
             {| ResponseMetadata.statusCode := 200;
                ResponseMetadata.statusMessage := "OK";
                ResponseMetadata.headers := requestHeaders |}
             "aGVsbG8=")]
  /\ requestHeaders <> responseHeaders.
Proof.
  cbv zeta. split; [reflexivity|]. split; [|split].
  - vm_compute. reflexivity.
  - vm_compute. reflexivity.
  - intros H.
    apply (f_equal (fun h : Headers => h !! "user-agent")) in H.
    vm_compute in H. discriminate H.
Qed.

(** The body of the synthesized response, spelled out. *)
Example badGateway_body :
  Base64.encode (bufferFromString "Error forwarding request to local service")
  = "RXJyb3IgZm9yd2FyZGluZyByZXF1ZXN0IHRvIGxvY2FsIHNlcnZpY2U=".
Proof. reflexivity. Qed.

(** C8.  When the call to the local service throws, the handler emits
    exactly one RESPONSE frame: it carries the stream identifier of the
    request, status 502 [Bad Gateway], the single header
    [content-type: text/plain], and the base64 text of
    [Error forwarding request to local service]. *)
Theorem failed_forward_emits_one_502 (E : Env) (m : Machine)
    (requestMessage : RequestMessage.t) (httpProxy : HttpProxyObject.t)
    (error : Thrown) :
  Handler.httpProxy (self m) = Some httpProxy ->
  axios E (List.length (sent m))
    (HttpProxy.requestConfig httpProxy
       (MessageHandlerService.proxyRequest E requestMessage)) = Threw error ->
  exists emissions timestamp,
    emitted (execM (MessageHandlerService.handleRequest E requestMessage) m)
    = (emitted m ++ emissions)%list
    /\ List.filter (fun e => bool_decide (frameType e = RESPONSE)) emissions
       = [frame (Handler.socket (self m)) "message" RESPONSE timestamp
            (ResponsePayload (RequestMessage.streamId requestMessage)
               {| ResponseMetadata.statusCode := 502;
                  ResponseMetadata.statusMessage := "Bad Gateway";
                  ResponseMetadata.headers :=
                    {[ "content-type" := HString "text/plain" ]} |}
               (Base64.encode
                  (bufferFromString "Error forwarding request to local service")))].
Proof.
  intros Hproxy Haxios.
  pose proof (handleRequest_failure E m requestMessage httpProxy error Hproxy Haxios)
    as H. cbv zeta in H.
  eexists _, _. split; [exact H|].
  destruct (MessageHandlerService.truthyField (Handler.tunnelId (self m)));
    reflexivity.
Qed.

Lemma failed_forward_emits_one_502_witness :
  exists emissions timestamp,
    emitted (execM (MessageHandlerService.handleRequest Scenario.refusing
                      Scenario.request) Scenario.established)
    = (emitted Scenario.established ++ emissions)%list
    /\ List.filter (fun e => bool_decide (frameType e = RESPONSE)) emissions
       = [frame 1 "message" RESPONSE timestamp
            (ResponsePayload "S"
               {| ResponseMetadata.statusCode := 502;
                  ResponseMetadata.statusMessage := "Bad Gateway";
                  ResponseMetadata.headers :=
                    {[ "content-type" := HString "text/plain" ]} |}
               (Base64.encode
                  (bufferFromString "Error forwarding request to local service")))].
Proof.
  apply (failed_forward_emits_one_502 Scenario.refusing Scenario.established
           Scenario.request {| HttpProxyObject.localPort := 3000 |}
           (AxiosError (Some "ECONNREFUSED") "connect ECONNREFUSED 127.0.0.1:3000"));
    reflexivity.
Defined.

(** C4, as stated, fails: a handler whose tunnel identifier was never set
    answers a request with the 502 frame and emits no REQUEST_LOG at all. *)
Lemma no_request_log_without_tunnelId :
  Handler.tunnelId (self Scenario.fresh) = None
  /\ emitted (execM (MessageHandlerService.handleRequest Scenario.refusing
                       Scenario.request) Scenario.fresh)
     = [frame 1 "message" RESPONSE (Scenario.clock 1)
          (MessageHandlerService.badGateway "S")]
  /\ ~ exists e,
        In e (emitted (execM (MessageHandlerService.handleRequest Scenario.refusing
                                Scenario.request) Scenario.fresh))
        /\ frameType e = REQUEST_LOG.
Proof.
  split; [reflexivity|]. split; [vm_compute; reflexivity|].
  intros [e [Hin Htype]].
  assert (Hem : emitted (execM (MessageHandlerService.handleRequest Scenario.refusing
                                 Scenario.request) Scenario.fresh)
                = [frame 1 "message" RESPONSE (Scenario.clock 1)
                     (MessageHandlerService.badGateway "S")])
    by (vm_compute; reflexivity).
  rewrite Hem in Hin. destruct Hin as [<-|[]].
  discriminate Htype.
Qed.

(** C4, amended.  While the tunnel identifier of the session is set to a
    non-empty string, every handled REQUEST ends with one REQUEST_LOG frame
    that carries this identifier, after the response frames; while it is
    unset or empty, no REQUEST_LOG frame is emitted. *)
Theorem request_log_iff_tunnelId (E : Env) (m : Machine)
    (requestMessage : RequestMessage.t) :
  let after := execM (MessageHandlerService.handleRequest E requestMessage) m in
  (forall tunnelId,
     Handler.tunnelId (self m) = Some tunnelId -> Js.truthy tunnelId = true ->
     exists responses timestamp log,
       emitted after
       = (emitted m ++ responses
          ++ [frame (Handler.socket (self m)) "message" REQUEST_LOG timestamp
                (RequestLogPayload log)])%list
       /\ Forall (fun e => frameType e = RESPONSE) responses
       /\ RequestLogMessage.tunnelId log = tunnelId)
  /\ (MessageHandlerService.truthyField (Handler.tunnelId (self m)) = false ->
      exists responses,
        emitted after = (emitted m ++ responses)%list
        /\ Forall (fun e => frameType e = RESPONSE) responses).
Proof.
  intros after.
  destruct (handleRequest_emitted E m requestMessage)
    as (responses & status & elapsed & t & Hem & Hresp & _).
  fold after in Hem. split.
  - intros tunnelId Htid Htruthy.
    rewrite Htid in Hem. cbn [MessageHandlerService.truthyField] in Hem.
    rewrite Htruthy in Hem.
    eexists responses, t, _. split; [exact Hem|]. split; [exact Hresp|].
    cbn. rewrite Htruthy. reflexivity.
  - intros Hfalse. rewrite Hfalse in Hem. rewrite app_nil_r in Hem.
    exists responses. split; assumption.
Qed.

Lemma request_log_iff_tunnelId_witness :
  (exists responses timestamp log,
     emitted (execM (MessageHandlerService.handleRequest Scenario.answering
                       Scenario.request) Scenario.established)
     = (emitted Scenario.established ++ responses
        ++ [frame 1 "message" REQUEST_LOG timestamp (RequestLogPayload log)])%list
     /\ Forall (fun e => frameType e = RESPONSE) responses
     /\ RequestLogMessage.tunnelId log = "T1")
  /\ (exists responses,
        emitted (execM (MessageHandlerService.handleRequest Scenario.answering
                          Scenario.request) Scenario.fresh)
        = (emitted Scenario.fresh ++ responses)%list
        /\ Forall (fun e => frameType e = RESPONSE) responses).
Proof.
  split.
  - apply (proj1 (request_log_iff_tunnelId Scenario.answering Scenario.established
                    Scenario.request) "T1"); reflexivity.
  - apply (proj2 (request_log_iff_tunnelId Scenario.answering Scenario.fresh
                    Scenario.request)); reflexivity.
Defined.

(** C10.  When the call to the local service throws, no REQUEST_LOG frame
    emitted by the handler carries an [errorMessage]; and such a frame is
    emitted whenever the tunnel identifier is set. *)
Theorem failed_request_log_has_no_errorMessage (E : Env) (m : Machine)
    (requestMessage : RequestMessage.t) (httpProxy : HttpProxyObject.t)
    (error : Thrown) :
  Handler.httpProxy (self m) = Some httpProxy ->
  axios E (List.length (sent m))
    (HttpProxy.requestConfig httpProxy
       (MessageHandlerService.proxyRequest E requestMessage)) = Threw error ->
  exists emissions,
    emitted (execM (MessageHandlerService.handleRequest E requestMessage) m)
    = (emitted m ++ emissions)%list
    /\ (forall e log,
          In e emissions ->
          TunnelMessage.payload (Emitted.data e) = RequestLogPayload log ->
          RequestLogMessage.errorMessage log = None)
    /\ (MessageHandlerService.truthyField (Handler.tunnelId (self m)) = true ->
        exists e, In e emissions /\ frameType e = REQUEST_LOG).
Proof.
  intros Hproxy Haxios.
  pose proof (handleRequest_failure E m requestMessage httpProxy error Hproxy Haxios)
    as H. cbv zeta in H.
  eexists. split; [exact H|]. split.
  - intros e log Hin Hpayload.
    destruct (MessageHandlerService.truthyField (Handler.tunnelId (self m)));
      cbn in Hin.
    + destruct Hin as [<-|[<-|[]]]; cbn in Hpayload.
      * discriminate Hpayload.
      * injection Hpayload as <-. reflexivity.
    + destruct Hin as [<-|[]]. cbn in Hpayload. discriminate Hpayload.
  - intros ->. eexists. split; [right; left; reflexivity | reflexivity].
Qed.

Lemma failed_request_log_has_no_errorMessage_witness :
  exists emissions,
    emitted (execM (MessageHandlerService.handleRequest Scenario.refusing
                      Scenario.request) Scenario.established)
    = (emitted Scenario.established ++ emissions)%list
    /\ (forall e log,
          In e emissions ->
          TunnelMessage.payload (Emitted.data e) = RequestLogPayload log ->
          RequestLogMessage.errorMessage log = None)
    /\ (MessageHandlerService.truthyField
          (Handler.tunnelId (self Scenario.established)) = true ->
        exists e, In e emissions /\ frameType e = REQUEST_LOG).
Proof.
  apply (failed_request_log_has_no_errorMessage Scenario.refusing Scenario.established
           Scenario.request {| HttpProxyObject.localPort := 3000 |}
           (AxiosError (Some "ECONNREFUSED") "connect ECONNREFUSED 127.0.0.1:3000"));
    reflexivity.
Defined.

(** ** The local-service probe *)

#[local] Arguments MessageHandlerService.isDownError : simpl never.
#[local] Arguments HttpProxy.mapError : simpl never.

Ltac run_ping :=
  unfold execM, MessageHandlerService.pingLocalService,
    MessageHandlerService.sendLocalServicePing, HttpProxy.forwardRequest,
    Utils.createMessage, frame,
    mbind, M_bind, mret, M_ret, getSelf, Date_now, callAxios, emit;
  cbn.

(** The probe is not made while the tunnel identifier is unset. *)
Lemma ping_skipped (E : Env) (m : Machine) :
  MessageHandlerService.truthyField (Handler.tunnelId (self m)) = false ->
  execM (MessageHandlerService.pingLocalService E) m = m.
Proof.
  intros H. run_ping.
  destruct (Handler.httpProxy (self m)); [|reflexivity].
  rewrite H. reflexivity.
Qed.

(** X20.  Any HTTP response to the probe is reported as liveness [true]. *)
Lemma ping_response (E : Env) (m : Machine) (httpProxy : HttpProxyObject.t)
    (tunnelId : string) (status : Z) (statusText : string)
    (responseHeaders : Headers) (data : list Byte.byte) :
  Handler.httpProxy (self m) = Some httpProxy ->
  Handler.tunnelId (self m) = Some tunnelId -> Js.truthy tunnelId = true ->
  axios E (List.length (sent m))
    (HttpProxy.requestConfig httpProxy MessageHandlerService.pingRequest)
  = Responded status statusText responseHeaders data ->
  emitted (execM (MessageHandlerService.pingLocalService E) m)
  = (emitted m
     ++ [frame (Handler.socket (self m)) "local_service" LOCAL_SERVICE_PING
           (dateNow E (clockReads m)) (LocalServicePingPayload tunnelId true)])%list.
Proof.
  intros Hproxy Htid Htruthy Haxios. run_ping.
  rewrite Hproxy, Htid. cbn. rewrite Htruthy, Haxios. cbn.
  rewrite Htid, Htruthy. reflexivity.
Qed.

(** What the probe emits when the axios call throws. *)
Lemma ping_error (E : Env) (m : Machine) (httpProxy : HttpProxyObject.t)
    (tunnelId : string) (error : Thrown) :
  Handler.httpProxy (self m) = Some httpProxy ->
  Handler.tunnelId (self m) = Some tunnelId -> Js.truthy tunnelId = true ->
  axios E (List.length (sent m))
    (HttpProxy.requestConfig httpProxy MessageHandlerService.pingRequest)
  = Threw error ->
  emitted (execM (MessageHandlerService.pingLocalService E) m)
  = (emitted m
     ++ (if MessageHandlerService.isDownError (HttpProxy.mapError httpProxy error)
         then [frame (Handler.socket (self m)) "local_service" LOCAL_SERVICE_PING
                 (dateNow E (clockReads m)) (LocalServicePingPayload tunnelId false)]
         else []))%list.
Proof.
  intros Hproxy Htid Htruthy Haxios. run_ping.
  rewrite Hproxy, Htid. cbn. rewrite Htruthy, Haxios. cbn.
  destruct (MessageHandlerService.isDownError (HttpProxy.mapError httpProxy error)).
  - cbn. rewrite Htid, Htruthy. reflexivity.
  - cbn. rewrite app_nil_r. reflexivity.
Qed.

(** The error thrown for a refused connection is recognised by the probe. *)
Lemma refused_isDownError (httpProxy : HttpProxyObject.t) (message : string) :
  MessageHandlerService.isDownError
    (HttpProxy.mapError httpProxy (AxiosError (Some "ECONNREFUSED") message)) = true.
Proof.
  unfold MessageHandlerService.isDownError.
  change (HttpProxy.mapError httpProxy (AxiosError (Some "ECONNREFUSED") message))
    with (PlainError
            ("Cannot connect to local service"
               +:+ (" on port " +:+ pretty (HttpProxyObject.localPort httpProxy)
                      +:+ ". Is your service running?"))).
  cbn [instanceofError errorMessageOf andb].
  rewrite (startsWith_includes _ "Cannot connect to local service");
    [rewrite orb_true_r; reflexivity | apply startsWith_app].
Qed.

(** X21.  A refused connection is reported as liveness [false]. *)
Lemma ping_refused (E : Env) (m : Machine) (httpProxy : HttpProxyObject.t)
    (tunnelId message : string) :
  Handler.httpProxy (self m) = Some httpProxy ->
  Handler.tunnelId (self m) = Some tunnelId -> Js.truthy tunnelId = true ->
  axios E (List.length (sent m))
    (HttpProxy.requestConfig httpProxy MessageHandlerService.pingRequest)
  = Threw (AxiosError (Some "ECONNREFUSED") message) ->
  emitted (execM (MessageHandlerService.pingLocalService E) m)
  = (emitted m
     ++ [frame (Handler.socket (self m)) "local_service" LOCAL_SERVICE_PING
           (dateNow E (clockReads m)) (LocalServicePingPayload tunnelId false)])%list.
Proof.
  intros Hproxy Htid Htruthy Haxios.
  rewrite (ping_error E m httpProxy tunnelId _ Hproxy Htid Htruthy Haxios).
  rewrite refused_isDownError. reflexivity.
Qed.

(** Errors whose text, as the forwarder throws it, has none of the three
    markers are ignored. *)
Lemma ping_other_error (E : Env) (m : Machine) (httpProxy : HttpProxyObject.t)
    (error : Thrown) :
  Handler.httpProxy (self m) = Some httpProxy ->
  axios E (List.length (sent m))
    (HttpProxy.requestConfig httpProxy MessageHandlerService.pingRequest)
  = Threw error ->
  MessageHandlerService.isDownError (HttpProxy.mapError httpProxy error) = false ->
  emitted (execM (MessageHandlerService.pingLocalService E) m) = emitted m.
Proof.
  intros Hproxy Haxios Hdown. run_ping. rewrite Hproxy.
  destruct (MessageHandlerService.truthyField (Handler.tunnelId (self m)));
    [|reflexivity].
  cbn. rewrite Haxios. cbn. rewrite Hdown. reflexivity.
Qed.

(** C3.  On a session whose tunnel identifier is set, a probe that fails
    with a timeout (axios error code [ETIMEDOUT] or [ECONNABORTED]) is made
    and emits no frame: the forwarder replaces the error by one whose text
    is [Request to local service timed out], which has none of the markers
    [ECONNREFUSED], [Cannot connect to local service], [ETIMEDOUT] that the
    probe looks for. *)
Theorem ping_timeout_emits_nothing (E : Env) (m : Machine)
    (httpProxy : HttpProxyObject.t) (code message : string) :
  Handler.httpProxy (self m) = Some httpProxy ->
  MessageHandlerService.truthyField (Handler.tunnelId (self m)) = true ->
  code = "ETIMEDOUT" \/ code = "ECONNABORTED" ->
  axios E (List.length (sent m))
    (HttpProxy.requestConfig httpProxy MessageHandlerService.pingRequest)
  = Threw (AxiosError (Some code) message) ->
  let after := execM (MessageHandlerService.pingLocalService E) m in
  sent after
  = (sent m ++ [HttpProxy.requestConfig httpProxy MessageHandlerService.pingRequest])%list
  /\ HttpProxy.mapError httpProxy (AxiosError (Some code) message)
     = PlainError "Request to local service timed out"
  /\ emitted after = emitted m.
Proof.
  intros Hproxy Htid Hcode Haxios after.
  assert (Hmap : HttpProxy.mapError httpProxy (AxiosError (Some code) message)
                 = PlainError "Request to local service timed out")
    by (destruct Hcode as [-> | ->]; reflexivity).
  split; [|split; [exact Hmap|]].
  - subst after. run_ping. rewrite Hproxy, Htid. cbn. rewrite Haxios. cbn.
    rewrite Hmap. reflexivity.
  - apply (ping_other_error E m httpProxy _ Hproxy Haxios).
    rewrite Hmap. reflexivity.
Qed.

Lemma ping_timeout_emits_nothing_witness :
  let after :=
    execM (MessageHandlerService.pingLocalService Scenario.timingOut)
      Scenario.established in
  sent after
  = (sent Scenario.established
     ++ [HttpProxy.requestConfig {| HttpProxyObject.localPort := 3000 |}
           MessageHandlerService.pingRequest])%list
  /\ HttpProxy.mapError {| HttpProxyObject.localPort := 3000 |}
       (AxiosError (Some "ETIMEDOUT") "connect ETIMEDOUT 127.0.0.1:3000")
     = PlainError "Request to local service timed out"
  /\ emitted after = emitted Scenario.established.
Proof.
  apply (ping_timeout_emits_nothing Scenario.timingOut Scenario.established
           {| HttpProxyObject.localPort := 3000 |} "ETIMEDOUT"
           "connect ETIMEDOUT 127.0.0.1:3000").
  - reflexivity.
  - reflexivity.
  - left. reflexivity.
  - reflexivity.
Defined.

(** ** The inbound CONNECT frame *)

(** C9.  An inbound frame of type CONNECT that arrives while the session is
    not connected makes the agent emit a CONNECT frame, marks the session
    connected and resolves the pending [connect()] promise; the tunnel
    identifier, the subdomain and the public URL are left as they were, so a
    session can be connected with none of them set. *)
Theorem connect_frame_marks_connected (E : Env) (this : SocketIOHandler.t)
    (m : Machine) (message : TunnelMessage.t) :
  TunnelMessage.type message = CONNECT ->
  Handler.isConnected (self m) = false ->
  let options := Handler.options (self m) in
  let after := execM (SocketIOHandler.onMessage E this (SocketIOHandler.Json message)) m in
  emitted after
  = (emitted m
     ++ [frame (Handler.socket (self m)) "message" CONNECT (dateNow E (clockReads m))
           (ConnectPayload (TunnelClientOptions.token options)
              (Some (TunnelClientOptions.subdomain options))
              (AGENT_VERSION E)
              (Some (TunnelClientOptions.localPort options))
              (Some 0%Z))])%list
  /\ Handler.isConnected (self after) = true
  /\ settled after = (settled m ++ [Resolved])%list
  /\ Handler.tunnelId (self after) = Handler.tunnelId (self m)
  /\ Handler.subdomain (self after) = Handler.subdomain (self m)
  /\ Handler.publicUrl (self after) = Handler.publicUrl (self m).
Proof.
  intros Htype Hconn options after. subst after options.
  unfold execM, SocketIOHandler.onMessage, SocketIOHandler.parseMessage,
    SocketIOHandler.handleMessage, MessageHandlerService.handleConnect,
    MessageHandlerService.getIsConnected, MessageHandlerService.setIsConnected,
    Utils.sendConnectMessage, Utils.createMessage, frame, settle, modifySelf,
    mbind, M_bind, mret, M_ret, getSelf, Date_now, emit.
  rewrite Htype. cbn. rewrite Hconn. cbn. rewrite Hconn. cbn.
  repeat split; reflexivity.
Qed.

Lemma connect_frame_marks_connected_witness :
  let after :=
    execM (SocketIOHandler.onMessage Scenario.refusing
             {| SocketIOHandler.socket := 1; SocketIOHandler.options := Scenario.options |}
             (SocketIOHandler.Json Scenario.connectFrame)) Scenario.fresh in
  emitted after
  = [frame 1 "message" CONNECT (Scenario.clock 0)
       (ConnectPayload (Some "tok") (Some "demo") (Some "1.0.0") (Some 3000%Z)
          (Some 0%Z))]
  /\ Handler.isConnected (self after) = true
  /\ settled after = [Resolved]
  /\ Handler.tunnelId (self after) = None
  /\ Handler.subdomain (self after) = None
  /\ Handler.publicUrl (self after) = None.
Proof.
  apply (connect_frame_marks_connected Scenario.refusing
           {| SocketIOHandler.socket := 1; SocketIOHandler.options := Scenario.options |}
           Scenario.fresh Scenario.connectFrame); reflexivity.
Defined.

(** ** Reconnection with backoff *)

Lemma execM_bind {A B : Type} (a : M A) (b : M B) (m : Machine) :
  execM (a;; b) m = execM b (execM a m).
Proof.
  unfold execM, mbind, M_bind. destruct (a m) as [x m']. reflexivity.
Qed.

Lemma failedAttempts_add (E : Env) (error : Thrown) (k l : nat) (m : Machine) :
  execM (EventLoop.failedAttempts E error (k + l)) m
  = execM (EventLoop.failedAttempts E error l)
      (execM (EventLoop.failedAttempts E error k) m).
Proof.
  revert m. induction k as [|k IH]; intros m.
  - reflexivity.
  - cbn [Nat.add EventLoop.failedAttempts]. rewrite !execM_bind. apply IH.
Qed.

Lemma findTimer_last (others : list Timer.t) (t : Timer.t) :
  Forall (fun t' => (Timer.id t' < Timer.id t)%nat) others ->
  EventLoop.findTimer (Timer.id t) (others ++ [t]) = Some t.
Proof.
  unfold EventLoop.findTimer. induction 1 as [|t' others Hlt _ IH]; cbn.
  - rewrite Nat.eqb_refl. reflexivity.
  - destruct (Nat.eqb_spec (Timer.id t') (Timer.id t)) as [Heq|_]; [lia | exact IH].
Qed.

Lemma dropTimer_others (id : nat) (others : list Timer.t) :
  Forall (fun t => (Timer.id t < id)%nat) others -> dropTimer id others = others.
Proof.
  unfold dropTimer. induction 1 as [|t others Hlt _ IH]; cbn; [reflexivity|].
  destruct (Nat.eqb_spec (Timer.id t) id) as [Heq|_]; [lia|].
  cbn. rewrite IH. reflexivity.
Qed.

Lemma dropTimer_last (others : list Timer.t) (t : Timer.t) :
  Forall (fun t' => (Timer.id t' < Timer.id t)%nat) others ->
  dropTimer (Timer.id t) (others ++ [t]) = others.
Proof.
  intros H. unfold dropTimer. rewrite List.filter_app. cbn.
  rewrite Nat.eqb_refl. cbn. rewrite app_nil_r. apply dropTimer_others, H.
Qed.

Lemma dropTimer_incl (id : nat) (ts : list Timer.t) (t : Timer.t) :
  In t (dropTimer id ts) -> In t ts.
Proof. unfold dropTimer. intros H. apply filter_In in H. apply H. Qed.

Lemma waiting_pending (others : list Timer.t) (j : nat) (m : Machine) :
  Episode.waiting others j m ->
  exists id, EventLoop.pendingReconnect m = Some (Episode.reconnectTimer id j).
Proof.
  intros (_ & _ & id & Hid & Htimers & Hothers & _). exists id.
  unfold EventLoop.pendingReconnect. rewrite Hid, Htimers.
  apply (findTimer_last others (Episode.reconnectTimer id j)), Hothers.
Qed.

Ltac run_reconnect :=
  unfold execM, EventLoop.failedAttempt, EventLoop.fire, EventLoop.runCallback,
    MessageHandlerService.attemptReconnect,
    MessageHandlerService.attemptReconnect_begin,
    MessageHandlerService.attemptReconnect_resume, MessageHandlerService.release,
    setTimeout, armTimer, clearTimer, processExit, modifySelf,
    mbind, M_bind, mret, M_ret, getSelf.

#[local] Arguments dropTimer : simpl never.
#[local] Arguments EventLoop.findTimer : simpl never.
#[local] Arguments Episode.reconnectTimer : simpl never.

(** The armed reconnection timer comes due: it is disarmed, the handle is
    released, and the callback waits for [connectFn()]. *)
Ltac fire_reconnect id j :=
  match goal with
  | Hid : Handler.reconnectTimeout (self ?m) = Some id,
    Hexit : exitCode ?m = None,
    Htimers : timers ?m = _,
    Hfind : EventLoop.findTimer id _ = _,
    Hdrop : dropTimer id (_ ++ _) = _,
    Hdrop' : dropTimer id _ = _ |- _ =>
      run_reconnect; cbn; rewrite Hid, Hexit, Htimers, Hfind;
      change (Timer.repeats (Episode.reconnectTimer id j)) with false;
      change (Timer.callback (Episode.reconnectTimer id j))
        with (ReconnectTick (Z.of_nat j));
      cbn; rewrite Hid; cbn; rewrite ?Htimers, Hdrop, Hdrop'
  end.

(** A failed attempt before the ceiling arms the next one. *)
Lemma failedAttempt_rearms (E : Env) (error : Thrown) (others : list Timer.t)
    (j : nat) (m : Machine) :
  j < 9 -> Episode.waiting others j m ->
  Episode.waiting others (S j) (execM (EventLoop.failedAttempt E error) m).
Proof.
  intros Hj (Hexit & Hshould & id & Hid & Htimers & Hothers & Hnext).
  pose proof (findTimer_last others (Episode.reconnectTimer id j) Hothers) as Hfind.
  pose proof (dropTimer_last others (Episode.reconnectTimer id j) Hothers) as Hdrop.
  pose proof (dropTimer_others id others Hothers) as Hdrop'.
  change (Timer.id (Episode.reconnectTimer id j)) with id in Hfind, Hdrop.
  assert (Hlt : (Z.of_nat j <? MessageHandlerService.maxRetries - 1)%Z = true)
    by (apply Z.ltb_lt; unfold MessageHandlerService.maxRetries; lia).
  fire_reconnect id j. rewrite Hlt, Hshould. cbn.
  unfold Episode.waiting. cbn. split; [exact Hexit|]. split; [exact Hshould|].
  exists (nextTimer m). split; [reflexivity|]. split.
  - unfold Episode.reconnectTimer, Episode.armedDelay.
    replace (Z.of_nat j + 1)%Z with (Z.of_nat (S j)) by lia. reflexivity.
  - split; [|lia].
    eapply List.Forall_impl; [|exact Hothers]. cbn. intros t Ht. lia.
Qed.

(** The failed attempt at the ceiling exits the process and arms nothing. *)
Lemma failedAttempt_exits (E : Env) (error : Thrown) (others : list Timer.t)
    (m : Machine) :
  Episode.waiting others 9 m ->
  let after := execM (EventLoop.failedAttempt E error) m in
  exitCode after = Some 1%Z
  /\ timers after = others
  /\ Handler.reconnectTimeout (self after) = None.
Proof.
  intros (Hexit & Hshould & id & Hid & Htimers & Hothers & Hnext).
  pose proof (findTimer_last others (Episode.reconnectTimer id 9) Hothers) as Hfind.
  pose proof (dropTimer_last others (Episode.reconnectTimer id 9) Hothers) as Hdrop.
  pose proof (dropTimer_others id others Hothers) as Hdrop'.
  change (Timer.id (Episode.reconnectTimer id 9)) with id in Hfind, Hdrop.
  fire_reconnect id 9%nat. repeat split; reflexivity.
Qed.

Lemma failedAttempts_waiting (E : Env) (error : Thrown) (others : list Timer.t)
    (k j : nat) (m : Machine) :
  j + k <= 9 -> Episode.waiting others j m ->
  Episode.waiting others (j + k) (execM (EventLoop.failedAttempts E error k) m).
Proof.
  revert j m. induction k as [|k IH]; intros j m Hjk Hw.
  - rewrite Nat.add_0_r. exact Hw.
  - cbn [EventLoop.failedAttempts]. rewrite execM_bind.
    replace (j + S k) with (S j + k) by lia.
    apply IH; [lia|]. apply failedAttempt_rearms; [lia | exact Hw].
Qed.

Lemma dropTimer_Forall (P : Timer.t -> Prop) (id : nat) (ts : list Timer.t) :
  Forall P ts -> Forall P (dropTimer id ts).
Proof.
  rewrite !List.Forall_forall. intros H t Ht. apply H.
  apply (dropTimer_incl id). exact Ht.
Qed.

(** A disconnect on a session that reconnects arms the first attempt, five
    seconds ahead, and arms nothing else. *)
Lemma handleDisconnect_waiting (m : Machine) :
  EventLoop.timersFresh m -> exitCode m = None ->
  Handler.shouldReconnect (self m) = true ->
  MessageHandlerService.reconnectEnabled (Handler.options (self m)) = true ->
  exists others,
    Episode.waiting others 0 (execM MessageHandlerService.handleDisconnect m)
    /\ (forall t, In t others -> In t (timers m)).
Proof.
  intros Hfresh Hexit Hshould Henabled. unfold EventLoop.timersFresh in Hfresh.
  unfold execM, MessageHandlerService.handleDisconnect, MessageHandlerService.release,
    Episode.waiting, setTimeout, armTimer, clearTimer, modifySelf,
    mbind, M_bind, mret, M_ret, getSelf.
  cbn.
  destruct (Handler.heartbeatInterval (self m)) as [hb|]; cbn;
    destruct (Handler.localServicePingInterval (self m)) as [lp|]; cbn;
    rewrite Hshould, Henabled; cbn;
    eexists; (split; [split; [exact Hexit|]; split; [exact Hshould|];
                      eexists; split; [reflexivity|]; split; [reflexivity|];
                      split; [|lia] |]);
    eauto using dropTimer_Forall, dropTimer_incl.
Qed.

(** X30.  The first attempt is armed five seconds after the disconnect. *)
Lemma first_attempt_after_5s (m : Machine) :
  EventLoop.timersFresh m -> exitCode m = None ->
  Handler.shouldReconnect (self m) = true ->
  MessageHandlerService.reconnectEnabled (Handler.options (self m)) = true ->
  exists id,
    EventLoop.pendingReconnect (execM MessageHandlerService.handleDisconnect m)
    = Some {| Timer.id := id; Timer.delay := 5000; Timer.repeats := false;
              Timer.callback := ReconnectTick 0 |}.
Proof.
  intros Hfresh Hexit Hshould Henabled.
  destruct (handleDisconnect_waiting m Hfresh Hexit Hshould Henabled)
    as (others & Hw & _).
  apply waiting_pending in Hw. exact Hw.
Qed.

(** C5.  In a session that reconnects, a disconnect followed by [k < 10]
    failed attempts leaves the process running, and the timer armed after
    the failure number [i] (counted from 0, [i < k]) has the delay
    [min (5000 * 2^i) 60000] milliseconds and runs the attempt number
    [i + 1]; the tenth failure in a row arms no timer and exits the process
    with code 1. *)
Theorem backoff_schedule (E : Env) (error : Thrown) (m : Machine) :
  EventLoop.timersFresh m -> exitCode m = None ->
  Handler.shouldReconnect (self m) = true ->
  MessageHandlerService.reconnectEnabled (Handler.options (self m)) = true ->
  let episode (k : nat) :=
    execM (MessageHandlerService.handleDisconnect;;
           EventLoop.failedAttempts E error k) m in
  (forall k i : nat, k < 10 -> i < k ->
     exitCode (episode k) = None
     /\ exists id,
         EventLoop.pendingReconnect (episode (S i))
         = Some {| Timer.id := id;
                   Timer.delay := Z.min (5000 * 2 ^ Z.of_nat i) 60000;
                   Timer.repeats := false;
                   Timer.callback := ReconnectTick (Z.of_nat i + 1) |})
  /\ exitCode (episode 10) = Some 1%Z
  /\ EventLoop.pendingReconnect (episode 10) = None
  /\ (forall t, In t (timers (episode 10)) -> In t (timers m)).
Proof.
  intros Hfresh Hexit Hshould Henabled episode.
  destruct (handleDisconnect_waiting m Hfresh Hexit Hshould Henabled)
    as (others & Hw & Hothers).
  assert (Hepisode : forall k, k <= 9 -> Episode.waiting others k (episode k)).
  { intros k Hk. unfold episode. rewrite execM_bind.
    apply (failedAttempts_waiting E error others k 0); [lia | exact Hw]. }
  split; [|].
  - intros k i Hk Hi. split.
    + apply (Hepisode k). lia.
    + destruct (waiting_pending others (S i) (episode (S i))) as [id Hid];
        [apply Hepisode; lia|].
      exists id. rewrite Hid. unfold Episode.reconnectTimer, Episode.armedDelay.
      replace (Z.of_nat (S i)) with (Z.of_nat i + 1)%Z by lia. reflexivity.
  - assert (Hten : episode 10 = execM (EventLoop.failedAttempt E error) (episode 9)).
    { unfold episode. rewrite !execM_bind.
      change 10 with (9 + 1). rewrite failedAttempts_add.
      cbn [EventLoop.failedAttempts]. rewrite execM_bind. reflexivity. }
    destruct (failedAttempt_exits E error others (episode 9) (Hepisode 9 (le_n 9)))
      as (Hcode & Htimers & Hhandle).
    rewrite Hten. split; [exact Hcode|]. split.
    + unfold EventLoop.pendingReconnect. rewrite Hhandle. reflexivity.
    + rewrite Htimers. exact Hothers.
Qed.

Lemma backoff_schedule_witness :
  let episode (k : nat) :=
    execM (MessageHandlerService.handleDisconnect;;
           EventLoop.failedAttempts Scenario.refusing (PlainError "websocket error") k)
      Scenario.established in
  (forall k i : nat, k < 10 -> i < k ->
     exitCode (episode k) = None
     /\ exists id,
         EventLoop.pendingReconnect (episode (S i))
         = Some {| Timer.id := id;
                   Timer.delay := Z.min (5000 * 2 ^ Z.of_nat i) 60000;
                   Timer.repeats := false;
                   Timer.callback := ReconnectTick (Z.of_nat i + 1) |})
  /\ exitCode (episode 10) = Some 1%Z
  /\ EventLoop.pendingReconnect (episode 10) = None
  /\ (forall t, In t (timers (episode 10)) -> In t (timers Scenario.established)).
Proof.
  apply (backoff_schedule Scenario.refusing (PlainError "websocket error")
           Scenario.established).
  - constructor.
  - reflexivity.
  - reflexivity.
  - reflexivity.
Defined.

(** The delays of a whole episode, in the order in which they are armed. *)
Example backoff_delays :
  List.map
    (fun k =>
       Timer.delay <$>
         EventLoop.pendingReconnect
           (execM (MessageHandlerService.handleDisconnect;;
                   EventLoop.failedAttempts Scenario.refusing OtherValue k)
              Scenario.established))
    (List.seq 0 11)
  = [Some 5000; Some 5000; Some 10000; Some 20000; Some 40000; Some 60000;
     Some 60000; Some 60000; Some 60000; Some 60000; None]%Z.
Proof. vm_compute. reflexivity. Qed.

(** * Further properties of the forwarder *)

(** Filtering twice is filtering once. *)
Theorem filterHeaders_idempotent (headers : Headers) :
  HttpProxy.filterHeaders (HttpProxy.filterHeaders headers)
  = HttpProxy.filterHeaders headers.
Proof.
  apply map_eq. intros key. rewrite !filterHeaders_lookup.
  destruct (HttpProxy.excluded key); reflexivity.
Qed.



(** The forwarder only talks to the local service: it emits no frame,
    touches no timer, reads no clock, settles nothing, does not exit and
    leaves the handler as it is. *)
Theorem forwardRequest_only_sends (E : Env) (this : HttpProxyObject.t)
    (request : ProxyRequest.t) (m : Machine) :
  let after := execM (HttpProxy.forwardRequest E this request) m in
  self after = self m /\ emitted after = emitted m /\ timers after = timers m
  /\ nextTimer after = nextTimer m /\ clockReads after = clockReads m
  /\ settled after = settled m /\ exitCode after = exitCode m.
Proof.
  unfold execM, HttpProxy.forwardRequest, mbind, M_bind, callAxios. cbn.
  destruct (axios E (List.length (sent m)) (HttpProxy.requestConfig this request));
    cbn; repeat split; reflexivity.
Qed.

(** X2.  Every HTTP response resolves the forwarder, whatever its status code:
    the forwarder throws exactly when the axios call throws, and then
    throws the mapped error. *)
Theorem forwardRequest_throws_iff (E : Env) (this : HttpProxyObject.t)
    (request : ProxyRequest.t) (m : Machine) (thrown : Thrown) :
  fst (HttpProxy.forwardRequest E this request m) = inl thrown
  <-> exists error,
        axios E (List.length (sent m)) (HttpProxy.requestConfig this request)
        = Threw error
        /\ thrown = HttpProxy.mapError this error.
Proof.
  unfold HttpProxy.forwardRequest, mbind, M_bind, callAxios. cbn.
  destruct (axios E (List.length (sent m)) (HttpProxy.requestConfig this request))
    as [status statusText responseHeaders data|error]; cbn; split.
  - discriminate.
  - intros [error [H _]]. discriminate H.
  - intros [= <-]. exists error. split; reflexivity.
  - intros [error' [[= <-] ->]]. reflexivity.
Qed.

Lemma forwardRequest_throws_iff_witness :
  fst (HttpProxy.forwardRequest Scenario.refusing {| HttpProxyObject.localPort := 3000 |}
         MessageHandlerService.pingRequest Scenario.established)
  = inl (PlainError
           "Cannot connect to local service on port 3000. Is your service running?").
Proof.
  apply (proj2 (forwardRequest_throws_iff Scenario.refusing
                  {| HttpProxyObject.localPort := 3000 |}
                  MessageHandlerService.pingRequest Scenario.established _)).
  exists (AxiosError (Some "ECONNREFUSED") "connect ECONNREFUSED 127.0.0.1:3000").
  split; reflexivity.
Defined.

(** X4.  Errors other than axios errors with the codes [ECONNREFUSED],
    [ETIMEDOUT] and [ECONNABORTED] are thrown on unchanged. *)
Theorem mapError_passthrough (this : HttpProxyObject.t) (error : Thrown) :
  (forall code message,
     error = AxiosError (Some code) message ->
     code ∉ ["ECONNREFUSED"; "ETIMEDOUT"; "ECONNABORTED"]) ->
  HttpProxy.mapError this error = error.
Proof.
  intros H. destruct error as [[code|] message|message|]; try reflexivity.
  specialize (H code message eq_refl).
  unfold HttpProxy.mapError.
  destruct (String.eqb_spec code "ECONNREFUSED") as [->|_];
    [exfalso; apply H; repeat constructor|].
  destruct (String.eqb_spec code "ETIMEDOUT") as [->|_];
    [exfalso; apply H; repeat constructor|].
  destruct (String.eqb_spec code "ECONNABORTED") as [->|_];
    [exfalso; apply H; repeat constructor|].
  reflexivity.
Qed.

Lemma mapError_passthrough_witness :
  HttpProxy.mapError {| HttpProxyObject.localPort := 3000 |}
    (AxiosError (Some "ECONNRESET") "socket hang up")
  = AxiosError (Some "ECONNRESET") "socket hang up".
Proof.
  apply (mapError_passthrough {| HttpProxyObject.localPort := 3000 |}
           (AxiosError (Some "ECONNRESET") "socket hang up")).
  intros code message [= <- _] H. apply list_elem_of_In in H.
  repeat (destruct H as [H|H]; [discriminate H|]). exact H.
Defined.

(** * Further properties of request dispatch *)

(** X5.  Whether the local service answers or the call throws, a handled REQUEST
    gets exactly one RESPONSE frame, on the [message] event of the current
    socket, and it carries the stream identifier of the request. *)
Theorem one_response_per_request (E : Env) (m : Machine)
    (requestMessage : RequestMessage.t) (httpProxy : HttpProxyObject.t) :
  Handler.httpProxy (self m) = Some httpProxy ->
  exists emissions timestamp metadata body,
    emitted (execM (MessageHandlerService.handleRequest E requestMessage) m)
    = (emitted m ++ emissions)%list
    /\ List.filter (fun e => bool_decide (frameType e = RESPONSE)) emissions
       = [frame (Handler.socket (self m)) "message" RESPONSE timestamp
            (ResponsePayload (RequestMessage.streamId requestMessage) metadata body)].
Proof.
  intros Hproxy.
  destruct (axios E (List.length (sent m))
              (HttpProxy.requestConfig httpProxy
                 (MessageHandlerService.proxyRequest E requestMessage)))
    as [status statusText responseHeaders data|error] eqn:Haxios.
  - pose proof (handleRequest_success E m requestMessage httpProxy _ _ _ _
                  Hproxy Haxios) as H. cbv zeta in H.
    eexists _, _, _, _. split; [exact H|].
    destruct (MessageHandlerService.truthyField (Handler.tunnelId (self m)));
      reflexivity.
  - pose proof (handleRequest_failure E m requestMessage httpProxy _ Hproxy Haxios)
      as H. cbv zeta in H.
    eexists _, _, _, _. split; [exact H|].
    destruct (MessageHandlerService.truthyField (Handler.tunnelId (self m)));
      reflexivity.
Qed.

Lemma one_response_per_request_witness :
  exists emissions timestamp metadata body,
    emitted (execM (MessageHandlerService.handleRequest Scenario.answering
                      Scenario.request) Scenario.established)
    = (emitted Scenario.established ++ emissions)%list
    /\ List.filter (fun e => bool_decide (frameType e = RESPONSE)) emissions
       = [frame 1 "message" RESPONSE timestamp (ResponsePayload "S" metadata body)].
Proof.
  apply (one_response_per_request Scenario.answering Scenario.established
           Scenario.request {| HttpProxyObject.localPort := 3000 |}).
  reflexivity.
Defined.

(** X6.  On a session with a tunnel identifier, the handled REQUEST emits the
    RESPONSE and then the REQUEST_LOG, and the log reports the status code
    of that RESPONSE together with the method and the path of the request. *)
Theorem request_log_matches_response (E : Env) (m : Machine)
    (requestMessage : RequestMessage.t) (httpProxy : HttpProxyObject.t) :
  Handler.httpProxy (self m) = Some httpProxy ->
  MessageHandlerService.truthyField (Handler.tunnelId (self m)) = true ->
  exists t1 t2 metadata body log,
    emitted (execM (MessageHandlerService.handleRequest E requestMessage) m)
    = (emitted m
       ++ [frame (Handler.socket (self m)) "message" RESPONSE t1
             (ResponsePayload (RequestMessage.streamId requestMessage) metadata body);
           frame (Handler.socket (self m)) "message" REQUEST_LOG t2
             (RequestLogPayload log)])%list
    /\ RequestLogMessage.statusCode log = ResponseMetadata.statusCode metadata
    /\ RequestLogMessage.method log
       = RequestMetadata.method (RequestMessage.metadata requestMessage)
    /\ RequestLogMessage.path log
       = RequestMetadata.path (RequestMessage.metadata requestMessage).
Proof.
  intros Hproxy Htid.
  destruct (axios E (List.length (sent m))
              (HttpProxy.requestConfig httpProxy
                 (MessageHandlerService.proxyRequest E requestMessage)))
    as [status statusText responseHeaders data|error] eqn:Haxios.
  - pose proof (handleRequest_success E m requestMessage httpProxy _ _ _ _
                  Hproxy Haxios) as H. cbv zeta in H. rewrite Htid in H.
    eexists _, _, _, _, _. split; [exact H|]. repeat split; reflexivity.
  - pose proof (handleRequest_failure E m requestMessage httpProxy _ Hproxy Haxios)
      as H. cbv zeta in H. rewrite Htid in H.
    eexists _, _, _, _, _. split; [exact H|]. repeat split; reflexivity.
Qed.

Lemma request_log_matches_response_witness :
  exists t1 t2 metadata body log,
    emitted (execM (MessageHandlerService.handleRequest Scenario.answering
                      Scenario.request) Scenario.established)
    = (emitted Scenario.established
       ++ [frame 1 "message" RESPONSE t1 (ResponsePayload "S" metadata body);
           frame 1 "message" REQUEST_LOG t2 (RequestLogPayload log)])%list
    /\ RequestLogMessage.statusCode log = ResponseMetadata.statusCode metadata
    /\ RequestLogMessage.method log = "GET"
    /\ RequestLogMessage.path log = "/x".
Proof.
  apply (request_log_matches_response Scenario.answering Scenario.established
           Scenario.request {| HttpProxyObject.localPort := 3000 |});
    reflexivity.
Defined.

(** X7.  Handling a request never changes the session: the handler fields, the
    armed timers, the settlement of [connect()] and the process are as
    before, and at most one request goes to the local service. *)
Theorem handleRequest_keeps_session (E : Env) (m : Machine)
    (requestMessage : RequestMessage.t) :
  let after := execM (MessageHandlerService.handleRequest E requestMessage) m in
  self after = self m /\ timers after = timers m /\ nextTimer after = nextTimer m
  /\ settled after = settled m /\ exitCode after = exitCode m
  /\ exists requests,
       sent after = (sent m ++ requests)%list /\ List.length requests <= 1.
Proof.
  run_handler.
  destruct (Handler.httpProxy (self m)) as [httpProxy|]; cbn.
  - destruct (axios E (List.length (sent m))
                (HttpProxy.requestConfig httpProxy
                   (MessageHandlerService.proxyRequest E requestMessage))); cbn;
      destruct (Handler.tunnelId (self m)) as [[|c tid]|]; cbn;
      repeat split; try reflexivity;
      (eexists; split; [reflexivity | simpl; lia]).
  - destruct (Handler.tunnelId (self m)) as [[|c tid]|]; cbn;
      repeat split; try reflexivity;
      (exists []; split; [rewrite app_nil_r; reflexivity | simpl; lia]).
Qed.


(** The log takes its [host] from the request header of exactly that name
    when the header holds a non-empty value. *)
Theorem requestLog_host_header (tunnelId publicUrl : string)
    (requestMessage : RequestMessage.t) (statusCode responseTime : Z)
    (errorMessage : option string) (v : HeaderValue) :
  RequestMetadata.headers (RequestMessage.metadata requestMessage) !! "host" = Some v ->
  truthyValue v = true ->
  RequestLogMessage.host
    (Utils.requestLog tunnelId publicUrl requestMessage statusCode responseTime
       errorMessage) = v.
Proof.
  intros Hv Ht. unfold Utils.requestLog. cbn. rewrite Hv, Ht. reflexivity.
Qed.

Lemma requestLog_host_header_witness :
  RequestLogMessage.host
    (Utils.requestLog "T1" "https://demo.tunnl.fit" Scenario.request 200 12 None)
  = HString "demo.tunnl.fit".
Proof.
  apply (requestLog_host_header "T1" "https://demo.tunnl.fit" Scenario.request
           200 12 None (HString "demo.tunnl.fit")); reflexivity.
Defined.

(** Every frame of a handled request goes to the socket that the handler
    holds. *)
Lemma handleRequest_sockets (E : Env) (m : Machine) (requestMessage : RequestMessage.t) :
  exists emissions,
    emitted (execM (MessageHandlerService.handleRequest E requestMessage) m)
    = (emitted m ++ emissions)%list
    /\ Forall (fun e => Emitted.socket e = Handler.socket (self m)
                        /\ Emitted.event e = "message") emissions.
Proof.
  run_handler.
  destruct (Handler.httpProxy (self m)) as [httpProxy|]; cbn.
  - destruct (axios E (List.length (sent m))
                (HttpProxy.requestConfig httpProxy
                   (MessageHandlerService.proxyRequest E requestMessage))); cbn;
      destruct (Handler.tunnelId (self m)) as [[|c tid]|]; cbn;
      rewrite <- ?app_assoc; (eexists; split; [reflexivity|]);
      repeat constructor.
  - destruct (Handler.tunnelId (self m)) as [[|c tid]|]; cbn.
    + exists []. split; [rewrite app_nil_r; reflexivity | constructor].
    + eexists. split; [reflexivity | repeat constructor].
    + exists []. split; [rewrite app_nil_r; reflexivity | constructor].
Qed.

(** X9.  After [updateSocket], the frames of a handled request go to the new
    socket. *)
Theorem updateSocket_redirects (E : Env) (m : Machine) (socket : nat)
    (requestMessage : RequestMessage.t) :
  exists emissions,
    emitted (execM (MessageHandlerService.updateSocket socket;;
                    MessageHandlerService.handleRequest E requestMessage) m)
    = (emitted m ++ emissions)%list
    /\ Forall (fun e => Emitted.socket e = socket) emissions.
Proof.
  rewrite execM_bind.
  destruct (handleRequest_sockets E
              (execM (MessageHandlerService.updateSocket socket) m) requestMessage)
    as (emissions & H & Hsock).
  exists emissions. split; [exact H|].
  eapply List.Forall_impl; [|exact Hsock]. cbn. intros e [He _]. exact He.
Qed.

(** * Further properties of the public-URL normalizer *)

Lemma forceHttps_not_http (s : string) :
  Js.startsWith (Js.forceHttps s) "http://" = false.
Proof.
  unfold Js.forceHttps.
  destruct (Js.dropPrefix "http://" s) as [r|] eqn:H.
  - reflexivity.
  - destruct (Js.startsWith s "http://") eqn:Hs; [|reflexivity].
    apply startsWith_dropPrefix in Hs. destruct Hs as [r Hr]. congruence.
Qed.

(** X10.  Unless the input mentions [localhost] or [127.0.0.1], the result never
    begins with [http://]. *)
Theorem fixPublicUrl_never_http (url subdomain : string)
    (options : TunnelClientOptions.t) :
  Js.includes url "localhost" = false -> Js.includes url "127.0.0.1" = false ->
  Js.startsWith (Utils.fixPublicUrl url subdomain options) "http://" = false.
Proof.
  intros H1 H2. unfold Utils.fixPublicUrl.
  rewrite test_localhost_includes, H1, H2. cbn [orb].
  apply forceHttps_not_http.
Qed.

Lemma fixPublicUrl_never_http_witness :
  Js.startsWith
    (Utils.fixPublicUrl "http://demo.tunnl.fit:3000" "demo" Scenario.options)
    "http://" = false.
Proof.
  apply (fixPublicUrl_never_http "http://demo.tunnl.fit:3000" "demo" Scenario.options);
    reflexivity.
Defined.

(** X11.  On a server URL written with [http://] or [https://], the text captured
    as server domain is the scheme name, whatever follows. *)
Theorem matchServer_http_scheme (rest : string) :
  Js.matchServer ("https://" +:+ rest) = Some "https"
  /\ Js.matchServer ("http://" +:+ rest) = Some "http".
Proof. split; reflexivity. Qed.

Lemma takeRun_host (host rest : string) :
  Js.noSep host = true -> Js.matchRun rest = None ->
  Js.takeRun (host +:+ rest) = host.
Proof.
  intros Hhost Hrest. induction host as [|c host IH].
  - change (Js.takeRun rest = "").
    destruct rest as [|c rest]; [reflexivity|].
    cbn in Hrest |- *. destruct (Js.notSep c); [discriminate Hrest | reflexivity].
  - cbn in Hhost. apply andb_true_iff in Hhost as [Hc Hhost].
    change (Js.takeRun (String c (host +:+ rest)) = String c host).
    cbn [Js.takeRun]. rewrite Hc, (IH Hhost). reflexivity.
Qed.

Lemma matchRun_host (host rest : string) :
  Js.noSep host = true -> Js.truthy host = true -> Js.matchRun rest = None ->
  Js.matchRun (host +:+ rest) = Some host.
Proof.
  intros Hhost Ht Hrest. destruct host as [|c host]; [discriminate Ht|].
  pose proof (takeRun_host (String c host) rest Hhost Hrest) as Hrun.
  cbn in Hhost. apply andb_true_iff in Hhost as [Hc _].
  change (String c host +:+ rest) with (String c (host +:+ rest)) in Hrun |- *.
  unfold Js.matchRun. rewrite Hc, Hrun. reflexivity.
Qed.

Lemma matchServerAt_first (s d : string) :
  Js.matchServerAt s = Some d -> Js.matchServer s = Some d.
Proof. intros H. destruct s; cbn [Js.matchServer]; rewrite H; reflexivity. Qed.

(** X12.  On a server URL written with [ws://] or [wss://], the captured server
    domain is the host: the text after the scheme up to the first [:] or
    [/], or up to the end. *)
Theorem matchServer_ws_scheme (host rest : string) :
  Js.noSep host = true -> Js.truthy host = true ->
  rest = "" \/ Js.startsWith rest ":" = true \/ Js.startsWith rest "/" = true ->
  Js.matchServer ("wss://" +:+ host +:+ rest) = Some host
  /\ Js.matchServer ("ws://" +:+ host +:+ rest) = Some host.
Proof.
  intros Hhost Ht Hrest.
  assert (Hnone : Js.matchRun rest = None).
  { destruct Hrest as [->|[H|H]]; [reflexivity| |];
      destruct rest as [|c rest]; try reflexivity; cbn [Js.startsWith] in H;
      revert H.
    - destruct (Ascii.eqb_spec ":" c) as [<-|]; [reflexivity | discriminate].
    - destruct (Ascii.eqb_spec "/" c) as [<-|]; [reflexivity | discriminate]. }
  pose proof (matchRun_host host rest Hhost Ht Hnone) as Hrun.
  split.
  - change ("wss://" +:+ host +:+ rest)
      with (String "w" (String "s" (String "s" (String ":" (String "/"
             (String "/" (host +:+ rest))))))).
    apply matchServerAt_first. unfold Js.matchServerAt.
    cbn [Js.dropPrefix Ascii.eqb Bool.eqb]. rewrite Hrun. reflexivity.
  - change ("ws://" +:+ host +:+ rest)
      with (String "w" (String "s" (String ":" (String "/"
             (String "/" (host +:+ rest)))))).
    apply matchServerAt_first. unfold Js.matchServerAt.
    cbn [Js.dropPrefix Ascii.eqb Bool.eqb]. rewrite Hrun. reflexivity.
Qed.

Lemma matchServer_ws_scheme_witness :
  Js.matchServer ("wss://" +:+ "tunnl.fit" +:+ ":8443/agent") = Some "tunnl.fit"
  /\ Js.matchServer ("ws://" +:+ "tunnl.fit" +:+ ":8443/agent") = Some "tunnl.fit".
Proof.
  apply (matchServer_ws_scheme "tunnl.fit" ":8443/agent").
  - reflexivity.
  - reflexivity.
  - right. left. reflexivity.
Defined.

Lemma stripTldPorts_https (r : string) :
  Js.stripTldPorts ("https://" +:+ r) = "https://" +:+ Js.stripTldPorts r.
Proof.
  unfold Js.stripTldPorts.
  change ("https://" +:+ r)
    with (String "h" (String "t" (String "t" (String "p" (String "s"
           (String ":" (String "/" (String "/" r)))))))).
  cbn [String.length Js.replaceTldPorts Js.matchTldPort]. reflexivity.
Qed.

Lemma stripTrailingPort_https (r : string) :
  Js.stripTrailingPort ("https://" +:+ r) = "https://" +:+ Js.stripTrailingPort r.
Proof.
  change ("https://" +:+ r)
    with (String "h" (String "t" (String "t" (String "p" (String "s"
           (String ":" (String "/" (String "/" r)))))))).
  cbn [Js.stripTrailingPort Js.matchTrailingPort Js.allDigits].
  change (Js.isDigit "/") with false. cbn [andb]. reflexivity.
Qed.

(** X13.  With a server URL that begins with [https://], a public URL that
    begins with [https://] is never rebuilt: the result is the input with
    its port suffixes stripped, whatever the subdomain. *)
Theorem fixPublicUrl_https_only_strips (r subdomain : string)
    (options : TunnelClientOptions.t) :
  Js.startsWith (TunnelClientOptions.serverUrl options) "https://" = true ->
  Js.includes r "localhost" = false -> Js.includes r "127.0.0.1" = false ->
  Utils.fixPublicUrl ("https://" +:+ r) subdomain options
  = "https://" +:+ Js.stripTrailingPort (Js.stripTldPorts r).
Proof.
  intros Hserver H1 H2.
  apply startsWith_dropPrefix in Hserver. destruct Hserver as [rest Hrest].
  apply dropPrefix_eq in Hrest.
  assert (Hlocal : Js.test_localhost ("https://" +:+ r) = false).
  { rewrite test_localhost_includes.
    change ("https://" +:+ r)
      with (String "h" (String "t" (String "t" (String "p" (String "s"
             (String ":" (String "/" (String "/" r)))))))).
    cbn [Js.includes Js.startsWith Ascii.eqb Bool.eqb orb].
    rewrite H1, H2. reflexivity. }
  unfold Utils.fixPublicUrl. rewrite Hlocal, Hrest.
  replace (Js.matchServer ("https://" +:+ rest)) with (Some "https") by reflexivity.
  rewrite stripTldPorts_https, stripTrailingPort_https.
  set (x := Js.stripTrailingPort (Js.stripTldPorts r)).
  change ("https://" +:+ x)
    with (String "h" (String "t" (String "t" (String "p" (String "s"
           (String ":" (String "/" (String "/" x)))))))).
  cbn [Js.truthy Js.includes Js.startsWith Ascii.eqb Bool.eqb orb andb negb].
  rewrite andb_false_r. reflexivity.
Qed.

Lemma fixPublicUrl_https_only_strips_witness :
  Utils.fixPublicUrl ("https://" +:+ "demo.tunnl.fit3000:3000") "demo" Scenario.options
  = "https://" +:+ Js.stripTrailingPort (Js.stripTldPorts "demo.tunnl.fit3000:3000").
Proof.
  apply (fixPublicUrl_https_only_strips "demo.tunnl.fit3000:3000" "demo"
           Scenario.options); reflexivity.
Defined.

(** X14.  When the repaired string does not mention the captured server domain
    and a subdomain is given, the result is [https://], the subdomain and
    the captured domain, also for a server URL that is not [https://]. *)
Theorem fixPublicUrl_rebuilt (url subdomain domain : string)
    (options : TunnelClientOptions.t) :
  Js.includes url "localhost" = false -> Js.includes url "127.0.0.1" = false ->
  Js.matchServer (TunnelClientOptions.serverUrl options) = Some domain ->
  Js.truthy subdomain = true ->
  Js.includes (Js.stripTrailingPort (Js.stripTldPorts url)) domain = false ->
  Utils.fixPublicUrl url subdomain options = "https://" +:+ subdomain +:+ domain.
Proof.
  intros H1 H2 Hd Hs Hmissing. unfold Utils.fixPublicUrl.
  rewrite test_localhost_includes, H1, H2. cbn [orb].
  rewrite Hd, Hs, Hmissing.
  destruct (matchServer_noSep _ _ Hd) as [_ ->]. cbn [andb negb].
  destruct (Js.startsWith (TunnelClientOptions.serverUrl options) "https://");
    reflexivity.
Qed.

Lemma fixPublicUrl_rebuilt_witness :
  Utils.fixPublicUrl "http://10.0.0.7:3000" "demo."
    {| TunnelClientOptions.serverUrl := "ws://tunnl.fit:8080";
       TunnelClientOptions.localPort := 3000;
       TunnelClientOptions.subdomain := "demo";
       TunnelClientOptions.token := None;
       TunnelClientOptions.reconnect := Some true |}
  = "https://" +:+ "demo." +:+ "tunnl.fit".
Proof.
  apply (fixPublicUrl_rebuilt "http://10.0.0.7:3000" "demo." "tunnl.fit");
    reflexivity.
Defined.

(** * Further properties of the dispatcher and of the session *)

Ltac run_listener :=
  unfold execM, SocketIOHandler.onMessage, SocketIOHandler.parseMessage,
    SocketIOHandler.handleMessage, MessageHandlerService.handleConnect,
    MessageHandlerService.getIsConnected, MessageHandlerService.setIsConnected,
    Utils.sendConnectMessage, Utils.createMessage, frame, settle, modifySelf,
    mbind, M_bind, mret, M_ret, getSelf, Date_now, emit.

(** X16.  A frame of any type other than CONNECT, CONNECT_ACK and REQUEST leaves
    the agent as it is; in particular an inbound HEARTBEAT gets no
    HEARTBEAT_ACK.  Text that does not parse is dropped in the same way. *)
Theorem other_frames_ignored (E : Env) (this : SocketIOHandler.t) (m : Machine)
    (message : TunnelMessage.t) :
  TunnelMessage.type message <> CONNECT ->
  TunnelMessage.type message <> CONNECT_ACK ->
  TunnelMessage.type message <> REQUEST ->
  execM (SocketIOHandler.onMessage E this (SocketIOHandler.Json message)) m = m
  /\ execM (SocketIOHandler.onMessage E this SocketIOHandler.Malformed) m = m.
Proof.
  intros H1 H2 H3. split; [|reflexivity].
  run_listener. destruct (TunnelMessage.type message); try contradiction;
    reflexivity.
Qed.

Lemma other_frames_ignored_witness :
  let heartbeat :=
    {| TunnelMessage.type := HEARTBEAT; TunnelMessage.timestamp := 1700000000000;
       TunnelMessage.payload := EmptyPayload |} in
  let this :=
    {| SocketIOHandler.socket := 1; SocketIOHandler.options := Scenario.options |} in
  execM (SocketIOHandler.onMessage Scenario.answering this
           (SocketIOHandler.Json heartbeat)) Scenario.established
  = Scenario.established
  /\ execM (SocketIOHandler.onMessage Scenario.answering this SocketIOHandler.Malformed)
       Scenario.established
     = Scenario.established.
Proof.
  intros heartbeat this.
  apply (other_frames_ignored Scenario.answering this Scenario.established heartbeat);
    discriminate.
Defined.

(** X17.  A CONNECT frame that arrives on a connected session has no effect: no
    frame is sent back and [resolve] is not called again. *)
Theorem connect_frame_when_connected (E : Env) (this : SocketIOHandler.t)
    (m : Machine) (message : TunnelMessage.t) :
  TunnelMessage.type message = CONNECT ->
  Handler.isConnected (self m) = true ->
  execM (SocketIOHandler.onMessage E this (SocketIOHandler.Json message)) m = m.
Proof.
  intros Htype Hconn. run_listener. rewrite Htype. cbn. rewrite Hconn. cbn.
  rewrite Hconn. reflexivity.
Qed.

Lemma connect_frame_when_connected_witness :
  execM (SocketIOHandler.onMessage Scenario.answering
           {| SocketIOHandler.socket := 1; SocketIOHandler.options := Scenario.options |}
           (SocketIOHandler.Json Scenario.connectFrame)) Scenario.established
  = Scenario.established.
Proof.
  apply (connect_frame_when_connected Scenario.answering
           {| SocketIOHandler.socket := 1; SocketIOHandler.options := Scenario.options |}
           Scenario.established Scenario.connectFrame); reflexivity.
Defined.

Lemma ping_frame (E : Env) (m : Machine) :
  let after := execM (MessageHandlerService.pingLocalService E) m in
  self after = self m /\ timers after = timers m /\ nextTimer after = nextTimer m
  /\ settled after = settled m /\ exitCode after = exitCode m
  /\ exists emissions,
       emitted after = (emitted m ++ emissions)%list
       /\ List.length emissions <= 1
       /\ Forall (fun e => Emitted.event e = "local_service"
                           /\ frameType e = LOCAL_SERVICE_PING) emissions.
Proof.
  run_ping.
  destruct (Handler.httpProxy (self m)) as [httpProxy|]; cbn;
    [|repeat split; exists []; rewrite app_nil_r;
      repeat split; [simpl; lia | constructor]].
  destruct (Handler.tunnelId (self m)) as [[|c tid]|] eqn:Htid; cbn;
    try (repeat split; exists []; rewrite app_nil_r;
         repeat split; [simpl; lia | constructor]).
  destruct (axios E (List.length (sent m))
              (HttpProxy.requestConfig httpProxy MessageHandlerService.pingRequest))
    as [status statusText responseHeaders data|error]; cbn.
  - rewrite Htid. cbn. repeat split.
    eexists. split; [reflexivity|]. split; [simpl; lia | repeat constructor].
  - destruct (MessageHandlerService.isDownError (HttpProxy.mapError httpProxy error));
      cbn.
    + rewrite Htid. cbn. repeat split.
      eexists. split; [reflexivity|]. split; [simpl; lia | repeat constructor].
    + repeat split. exists []. rewrite app_nil_r.
      repeat split; [simpl; lia | constructor].
Qed.

(** X18.  The probe changes nothing in the session and emits at most one frame,
    a LOCAL_SERVICE_PING on the [local_service] event. *)
Theorem ping_keeps_session (E : Env) (m : Machine) :
  let after := execM (MessageHandlerService.pingLocalService E) m in
  self after = self m /\ timers after = timers m /\ nextTimer after = nextTimer m
  /\ settled after = settled m /\ exitCode after = exitCode m
  /\ exists emissions,
       emitted after = (emitted m ++ emissions)%list
       /\ List.length emissions <= 1
       /\ Forall (fun e => Emitted.event e = "local_service"
                           /\ frameType e = LOCAL_SERVICE_PING) emissions.
Proof. exact (ping_frame E m). Qed.

(** X19.  A CONNECT_ACK on a session that is not connected establishes it: the
    identity is stored with the normalized public URL, the heartbeat is
    armed every 30 s and the probe every 5 s, the session is marked
    connected and [connect()] is resolved. *)
Theorem connect_ack_establishes (E : Env) (this : SocketIOHandler.t) (m : Machine)
    (message : TunnelMessage.t) (ack : ConnectAckMessage.t) :
  TunnelMessage.type message = CONNECT_ACK ->
  TunnelMessage.payload message = ConnectAckPayload ack ->
  Handler.isConnected (self m) = false ->
  let after := execM (SocketIOHandler.onMessage E this (SocketIOHandler.Json message)) m in
  Handler.tunnelId (self after) = Some (ConnectAckMessage.tunnelId ack)
  /\ Handler.subdomain (self after) = Some (ConnectAckMessage.subdomain ack)
  /\ Handler.publicUrl (self after)
     = Some (Utils.fixPublicUrl (ConnectAckMessage.publicUrl ack)
               (ConnectAckMessage.subdomain ack) (Handler.options (self m)))
  /\ Handler.isConnected (self after) = true
  /\ settled after = (settled m ++ [Resolved])%list
  /\ Handler.heartbeatInterval (self after) = Some (nextTimer m)
  /\ Handler.localServicePingInterval (self after) = Some (S (nextTimer m))
  /\ timers after
     = (timers m
        ++ [{| Timer.id := nextTimer m; Timer.delay := 30000; Timer.repeats := true;
               Timer.callback := HeartbeatTick |};
            {| Timer.id := S (nextTimer m); Timer.delay := 5000; Timer.repeats := true;
               Timer.callback := LocalServicePingTick |}])%list.
Proof.
  intros Htype Hpayload Hconn after. subst after.
  unfold execM, SocketIOHandler.onMessage, SocketIOHandler.parseMessage,
    SocketIOHandler.handleMessage, MessageHandlerService.handleConnectAck,
    MessageHandlerService.startHeartbeat, MessageHandlerService.startLocalServicePing,
    MessageHandlerService.getIsConnected, MessageHandlerService.setIsConnected,
    setInterval, armTimer, settle, modifySelf, mbind, M_bind, mret, M_ret, getSelf.
  rewrite Htype, Hpayload. cbn.
  match goal with
  | |- context [MessageHandlerService.pingLocalService E ?m1] =>
      pose proof (ping_frame E m1) as Hping;
      unfold execM in Hping; cbv zeta in Hping;
      destruct (MessageHandlerService.pingLocalService E m1) as [[] m2]
  end.
  cbn in Hping. destruct Hping as (Hself & Htimers & Hnext & Hsettled & _).
  cbn. rewrite Hself, Htimers, Hnext, Hsettled. cbn. rewrite Hconn. cbn.
  rewrite <- app_assoc. repeat split; reflexivity.
Qed.

Lemma connect_ack_establishes_witness :
  let message :=
    {| TunnelMessage.type := CONNECT_ACK; TunnelMessage.timestamp := 1700000000000;
       TunnelMessage.payload :=
         ConnectAckPayload
           {| ConnectAckMessage.tunnelId := "T1";
              ConnectAckMessage.subdomain := "demo";
              ConnectAckMessage.publicUrl := "https://demo.tunnl.fit:3000" |} |} in
  let after :=
    execM (SocketIOHandler.onMessage Scenario.answering
             {| SocketIOHandler.socket := 1; SocketIOHandler.options := Scenario.options |}
             (SocketIOHandler.Json message)) Scenario.fresh in
  Handler.tunnelId (self after) = Some "T1"
  /\ Handler.subdomain (self after) = Some "demo"
  /\ Handler.publicUrl (self after)
     = Some (Utils.fixPublicUrl "https://demo.tunnl.fit:3000" "demo" Scenario.options)
  /\ Handler.isConnected (self after) = true
  /\ settled after = [Resolved]
  /\ Handler.heartbeatInterval (self after) = Some 0
  /\ Handler.localServicePingInterval (self after) = Some 1
  /\ timers after
     = [{| Timer.id := 0; Timer.delay := 30000; Timer.repeats := true;
           Timer.callback := HeartbeatTick |};
        {| Timer.id := 1; Timer.delay := 5000; Timer.repeats := true;
           Timer.callback := LocalServicePingTick |}].
Proof.
  intros message.
  apply (connect_ack_establishes Scenario.answering
           {| SocketIOHandler.socket := 1; SocketIOHandler.options := Scenario.options |}
           Scenario.fresh message
           {| ConnectAckMessage.tunnelId := "T1";
              ConnectAckMessage.subdomain := "demo";
              ConnectAckMessage.publicUrl := "https://demo.tunnl.fit:3000" |});
    reflexivity.
Defined.

Lemma ping_response_witness :
  emitted
    (execM (MessageHandlerService.pingLocalService
              (Scenario.env (Responded 503 "Service Unavailable" ∅ [])))
       Scenario.established)
  = [frame 1 "local_service" LOCAL_SERVICE_PING (Scenario.clock 0)
       (LocalServicePingPayload "T1" true)].
Proof.
  apply (ping_response (Scenario.env (Responded 503 "Service Unavailable" ∅ []))
           Scenario.established {| HttpProxyObject.localPort := 3000 |} "T1"
           503 "Service Unavailable" ∅ []); reflexivity.
Defined.

Lemma ping_refused_witness :
  emitted (execM (MessageHandlerService.pingLocalService Scenario.refusing)
             Scenario.established)
  = [frame 1 "local_service" LOCAL_SERVICE_PING (Scenario.clock 0)
       (LocalServicePingPayload "T1" false)].
Proof.
  apply (ping_refused Scenario.refusing Scenario.established
           {| HttpProxyObject.localPort := 3000 |} "T1"
           "connect ECONNREFUSED 127.0.0.1:3000"); reflexivity.
Defined.

(** The request of the probe, for every port: [HEAD] on the root path of
    the local service, no query mark, no body, and the [User-Agent] header
    kept by the filter. *)
Theorem ping_request_config (this : HttpProxyObject.t) :
  HttpProxy.requestConfig this MessageHandlerService.pingRequest
  = {| AxiosRequestConfig.method := "HEAD";
       AxiosRequestConfig.url :=
         "http://localhost:" +:+ pretty (HttpProxyObject.localPort this) +:+ "/";
       AxiosRequestConfig.headers := {[ "User-Agent" := HString "Tunnel-Agent-Ping" ]};
       AxiosRequestConfig.data := None;
       AxiosRequestConfig.responseType := "arraybuffer";
       AxiosRequestConfig.maxRedirects := 0 |}.
Proof.
  unfold HttpProxy.requestConfig. cbn. reflexivity.
Qed.

(** * Further properties of disconnection and reconnection *)

Ltac run_disconnect :=
  unfold execM, MessageHandlerService.handleDisconnect, MessageHandlerService.destroy,
    MessageHandlerService.release, setTimeout, armTimer, clearTimer, modifySelf,
    mbind, M_bind, mret, M_ret, getSelf.



(** X23.  After [destroy], a disconnect event arms no reconnection: the three
    handles are released, no timer is created, and every timer still armed
    was armed before. *)
Theorem destroy_then_disconnect (m : Machine) :
  let after :=
    execM (MessageHandlerService.destroy;; MessageHandlerService.handleDisconnect) m in
  Handler.shouldReconnect (self after) = false
  /\ Handler.isConnected (self after) = false
  /\ Handler.heartbeatInterval (self after) = None
  /\ Handler.localServicePingInterval (self after) = None
  /\ Handler.reconnectTimeout (self after) = None
  /\ nextTimer after = nextTimer m
  /\ (forall t, In t (timers after) -> In t (timers m))
  /\ exitCode after = exitCode m.
Proof.
  run_disconnect. cbn.
  destruct (Handler.heartbeatInterval (self m)) as [hb|] eqn:Hhb; cbn;
    destruct (Handler.localServicePingInterval (self m)) as [lp|] eqn:Hlp; cbn;
    destruct (Handler.reconnectTimeout (self m)) as [rt|] eqn:Hrt; cbn;
    do 3 (rewrite ?Hhb, ?Hlp, ?Hrt; cbn);
    repeat split; try reflexivity; try assumption;
    intros t Ht; repeat (apply dropTimer_incl in Ht); exact Ht.
Qed.

Lemma findTimer_dropTimer_same (id : nat) (ts : list Timer.t) :
  EventLoop.findTimer id (dropTimer id ts) = None.
Proof.
  unfold EventLoop.findTimer, dropTimer.
  induction ts as [|t ts IH]; [reflexivity|]. cbn.
  destruct (Nat.eqb (Timer.id t) id) eqn:Ht; cbn; [exact IH|].
  rewrite Ht. exact IH.
Qed.

Lemma findTimer_dropTimer_none (id id' : nat) (ts : list Timer.t) :
  EventLoop.findTimer id ts = None ->
  EventLoop.findTimer id (dropTimer id' ts) = None.
Proof.
  unfold EventLoop.findTimer, dropTimer.
  induction ts as [|t ts IH]; [reflexivity|]. cbn.
  destruct (Nat.eqb (Timer.id t) id) eqn:Ht; [discriminate|]. intros H.
  destruct (Nat.eqb (Timer.id t) id'); cbn; [exact (IH H)|].
  rewrite Ht. exact (IH H).
Qed.

Lemma findTimer_app_none (id : nat) (ts : list Timer.t) (t : Timer.t) :
  EventLoop.findTimer id ts = None -> Timer.id t <> id ->
  EventLoop.findTimer id (ts ++ [t]) = None.
Proof.
  unfold EventLoop.findTimer. intros H Hne.
  induction ts as [|t' ts IH]; cbn in *.
  - destruct (Nat.eqb_spec (Timer.id t) id); [contradiction | reflexivity].
  - destruct (Nat.eqb (Timer.id t') id); [discriminate H | exact (IH H)].
Qed.

Lemma fire_unarmed (E : Env) (id : nat) (connected : Settlement) (m : Machine) :
  EventLoop.findTimer id (timers m) = None ->
  execM (EventLoop.fire E id connected) m = m.
Proof.
  intros H. unfold execM, EventLoop.fire. rewrite H.
  destruct (exitCode m); reflexivity.
Qed.

(** X24.  Once a disconnect has been handled, the heartbeat and probe intervals
    that the handler held cannot fire any more. *)
Theorem released_intervals_do_not_fire (E : Env) (m : Machine) (id : nat)
    (connected : Settlement) :
  Handler.heartbeatInterval (self m) = Some id
  \/ Handler.localServicePingInterval (self m) = Some id ->
  (id < nextTimer m)%nat ->
  execM (MessageHandlerService.handleDisconnect;; EventLoop.fire E id connected) m
  = execM MessageHandlerService.handleDisconnect m.
Proof.
  intros Hheld Hfresh. rewrite execM_bind. apply fire_unarmed.
  run_disconnect. cbn.
  destruct (Handler.heartbeatInterval (self m)) as [hb|] eqn:Hhb; cbn;
    destruct (Handler.localServicePingInterval (self m)) as [lp|] eqn:Hlp; cbn;
    destruct (Handler.shouldReconnect (self m)
              && MessageHandlerService.reconnectEnabled (Handler.options (self m)));
    cbn;
    destruct Hheld as [[= ->]|[= ->]];
    try (apply findTimer_app_none; [|cbn; lia]);
    eauto using findTimer_dropTimer_same, findTimer_dropTimer_none.
Qed.

Lemma released_intervals_do_not_fire_witness :
  let m :=
    execM (MessageHandlerService.handleConnectAck Scenario.answering
             {| ConnectAckMessage.tunnelId := "T1";
                ConnectAckMessage.subdomain := "demo";
                ConnectAckMessage.publicUrl := "https://demo.tunnl.fit" |})
      Scenario.fresh in
  execM (MessageHandlerService.handleDisconnect;;
         EventLoop.fire Scenario.answering 0 Resolved) m
  = execM MessageHandlerService.handleDisconnect m.
Proof.
  intros m.
  apply (released_intervals_do_not_fire Scenario.answering m 0 Resolved).
  - left. reflexivity.
  - vm_compute. lia.
Defined.

(** A failed attempt before the ceiling keeps the options of the handler. *)
Lemma failedAttempt_options (E : Env) (error : Thrown) (others : list Timer.t)
    (j : nat) (m : Machine) :
  j < 9 -> Episode.waiting others j m ->
  Handler.options (self (execM (EventLoop.failedAttempt E error) m))
  = Handler.options (self m).
Proof.
  intros Hj (Hexit & Hshould & id & Hid & Htimers & Hothers & Hnext).
  pose proof (findTimer_last others (Episode.reconnectTimer id j) Hothers) as Hfind.
  pose proof (dropTimer_last others (Episode.reconnectTimer id j) Hothers) as Hdrop.
  pose proof (dropTimer_others id others Hothers) as Hdrop'.
  change (Timer.id (Episode.reconnectTimer id j)) with id in Hfind, Hdrop.
  assert (Hlt : (Z.of_nat j <? MessageHandlerService.maxRetries - 1)%Z = true)
    by (apply Z.ltb_lt; unfold MessageHandlerService.maxRetries; lia).
  fire_reconnect id j. rewrite Hlt, Hshould. reflexivity.
Qed.

Lemma failedAttempts_options (E : Env) (error : Thrown) (others : list Timer.t)
    (k j : nat) (m : Machine) :
  j + k <= 9 -> Episode.waiting others j m ->
  Handler.options (self (execM (EventLoop.failedAttempts E error k) m))
  = Handler.options (self m).
Proof.
  revert j m. induction k as [|k IH]; intros j m Hjk Hw.
  - reflexivity.
  - cbn [EventLoop.failedAttempts]. rewrite execM_bind.
    rewrite (IH (S j)); [|lia|apply failedAttempt_rearms; [lia | exact Hw]].
    apply (failedAttempt_options E error others j); [lia | exact Hw].
Qed.

(** An attempt that succeeds arms nothing and leaves the session ready for
    a later disconnect. *)
Lemma succeededAttempt_idle (E : Env) (others : list Timer.t) (j : nat) (m : Machine) :
  Episode.waiting others j m ->
  let after := execM (Session.succeededAttempt E) m in
  exitCode after = None
  /\ Handler.shouldReconnect (self after) = true
  /\ Handler.options (self after) = Handler.options (self m)
  /\ Handler.reconnectTimeout (self after) = None
  /\ timers after = others
  /\ EventLoop.timersFresh after.
Proof.
  intros (Hexit & Hshould & id & Hid & Htimers & Hothers & Hnext).
  pose proof (findTimer_last others (Episode.reconnectTimer id j) Hothers) as Hfind.
  pose proof (dropTimer_last others (Episode.reconnectTimer id j) Hothers) as Hdrop.
  pose proof (dropTimer_others id others Hothers) as Hdrop'.
  change (Timer.id (Episode.reconnectTimer id j)) with id in Hfind, Hdrop.
  unfold Session.succeededAttempt. fire_reconnect id j.
  unfold EventLoop.timersFresh. cbn. repeat split; try assumption.
  eapply List.Forall_impl; [|exact Hothers]. cbn. intros t Ht. lia.
Qed.

(** X25.  The schedule starts over after a success: when [k < 10] attempts have
    failed and the next one succeeds, a later disconnect arms attempt
    number 0 again, five seconds ahead. *)
Theorem success_restarts_schedule (E : Env) (error : Thrown) (m : Machine) (k : nat) :
  EventLoop.timersFresh m -> exitCode m = None ->
  Handler.shouldReconnect (self m) = true ->
  MessageHandlerService.reconnectEnabled (Handler.options (self m)) = true ->
  k < 10 ->
  let after :=
    execM (MessageHandlerService.handleDisconnect;;
           EventLoop.failedAttempts E error k;;
           Session.succeededAttempt E;;
           MessageHandlerService.handleDisconnect) m in
  exitCode after = None
  /\ exists id,
      EventLoop.pendingReconnect after
      = Some {| Timer.id := id; Timer.delay := 5000; Timer.repeats := false;
                Timer.callback := ReconnectTick 0 |}.
Proof.
  intros Hfresh Hexit Hshould Henabled Hk after. subst after.
  rewrite !execM_bind.
  destruct (handleDisconnect_waiting m Hfresh Hexit Hshould Henabled)
    as (others & Hw & _).
  set (m1 := execM MessageHandlerService.handleDisconnect m) in *.
  assert (Hopt1 : Handler.options (self m1) = Handler.options (self m)).
  { subst m1. run_disconnect. cbn.
    destruct (Handler.heartbeatInterval (self m)); cbn;
      destruct (Handler.localServicePingInterval (self m)); cbn;
      rewrite Hshould, Henabled; reflexivity. }
  pose proof (failedAttempts_waiting E error others k 0 m1 ltac:(lia) Hw) as Hwk.
  pose proof (failedAttempts_options E error others k 0 m1 ltac:(lia) Hw) as Hoptk.
  cbn [Nat.add] in Hwk.
  set (m2 := execM (EventLoop.failedAttempts E error k) m1) in *.
  destruct (succeededAttempt_idle E others k m2 Hwk)
    as (Hexit3 & Hshould3 & Hopt3 & _ & _ & Hfresh3).
  set (m3 := execM (Session.succeededAttempt E) m2) in *.
  assert (Henabled3 : MessageHandlerService.reconnectEnabled
                        (Handler.options (self m3)) = true)
    by (rewrite Hopt3, Hoptk, Hopt1; exact Henabled).
  destruct (handleDisconnect_waiting m3 Hfresh3 Hexit3 Hshould3 Henabled3)
    as (others' & Hw' & _).
  split; [apply Hw'|].
  apply waiting_pending in Hw'. exact Hw'.
Qed.

Lemma success_restarts_schedule_witness :
  let after :=
    execM (MessageHandlerService.handleDisconnect;;
           EventLoop.failedAttempts Scenario.refusing OtherValue 6;;
           Session.succeededAttempt Scenario.refusing;;
           MessageHandlerService.handleDisconnect) Scenario.established in
  exitCode after = None
  /\ exists id,
      EventLoop.pendingReconnect after
      = Some {| Timer.id := id; Timer.delay := 5000; Timer.repeats := false;
                Timer.callback := ReconnectTick 0 |}.
Proof.
  apply (success_restarts_schedule Scenario.refusing OtherValue Scenario.established 6).
  - constructor.
  - reflexivity.
  - reflexivity.
  - reflexivity.
  - lia.
Defined.

(** X26.  Before the ceiling, on a session that reconnects, a rejected attempt
    arms exactly one timer for the next attempt; its delay lies between 5 s
    and 60 s and is 60 s from the fifth attempt on. *)
Theorem reconnect_delay_bounds (m : Machine) (retryCount : Z) (error : Thrown) :
  (0 <= retryCount < 9)%Z ->
  Handler.shouldReconnect (self m) = true ->
  let after :=
    execM (MessageHandlerService.attemptReconnect_resume retryCount (Rejected error)) m in
  exists delay,
    timers after
    = (timers m
       ++ [{| Timer.id := nextTimer m; Timer.delay := delay; Timer.repeats := false;
              Timer.callback := ReconnectTick (retryCount + 1) |}])%list
    /\ (5000 <= delay <= 60000)%Z
    /\ ((4 <= retryCount)%Z -> delay = 60000%Z)
    /\ Handler.reconnectTimeout (self after) = Some (nextTimer m)
    /\ exitCode after = exitCode m.
Proof.
  intros Hn Hshould.
  assert (Hlt : (retryCount <? MessageHandlerService.maxRetries - 1)%Z = true)
    by (apply Z.ltb_lt; unfold MessageHandlerService.maxRetries; lia).
  run_reconnect. cbn. rewrite Hlt, Hshould. cbn.
  eexists. split; [reflexivity|].
  unfold MessageHandlerService.baseDelay, MessageHandlerService.maxDelay.
  assert (Hpow : (1 <= 2 ^ retryCount)%Z)
    by (change 1%Z with (2 ^ 0)%Z; apply Z.pow_le_mono_r; lia).
  split; [lia|]. split; [|split; reflexivity].
  intros H4.
  assert (Hpow4 : (2 ^ 4 <= 2 ^ retryCount)%Z) by (apply Z.pow_le_mono_r; lia).
  change (2 ^ 4)%Z with 16%Z in Hpow4. lia.
Qed.

Lemma reconnect_delay_bounds_witness :
  let after :=
    execM (MessageHandlerService.attemptReconnect_resume 5 (Rejected OtherValue))
      Scenario.established in
  exists delay,
    timers after
    = (timers Scenario.established
       ++ [{| Timer.id := nextTimer Scenario.established; Timer.delay := delay;
              Timer.repeats := false; Timer.callback := ReconnectTick (5 + 1) |}])%list
    /\ (5000 <= delay <= 60000)%Z
    /\ ((4 <= 5)%Z -> delay = 60000%Z)
    /\ Handler.reconnectTimeout (self after) = Some (nextTimer Scenario.established)
    /\ exitCode after = exitCode Scenario.established.
Proof.
  apply (reconnect_delay_bounds Scenario.established 5 OtherValue);
    [lia | reflexivity].
Defined.

(** X27.  When [destroy] runs while an attempt waits for [connectFn()] and the
    attempt is then rejected, the process exits with code 1 whatever the
    number of the attempt, and no timer is armed. *)
Theorem rejected_after_destroy_exits (m : Machine) (retryCount : Z) (error : Thrown) :
  let after :=
    execM (MessageHandlerService.attemptReconnect_begin;;
           MessageHandlerService.destroy;;
           MessageHandlerService.attemptReconnect_resume retryCount (Rejected error)) m in
  exitCode after = Some 1%Z
  /\ nextTimer after = nextTimer m
  /\ (forall t, In t (timers after) -> In t (timers m)).
Proof.
  unfold execM, MessageHandlerService.attemptReconnect_begin,
    MessageHandlerService.attemptReconnect_resume, MessageHandlerService.destroy,
    MessageHandlerService.release, setTimeout, armTimer, clearTimer, processExit,
    modifySelf, mbind, M_bind, mret, M_ret, getSelf.
  cbn.
  destruct (Handler.reconnectTimeout (self m)) as [rt|] eqn:Hrt; cbn;
    destruct (Handler.heartbeatInterval (self m)) as [hb|] eqn:Hhb; cbn;
    destruct (Handler.localServicePingInterval (self m)) as [lp|] eqn:Hlp; cbn;
    do 3 (rewrite ?Hhb, ?Hlp, ?Hrt; cbn);
    rewrite andb_false_r; cbn;
    repeat split; try reflexivity;
    intros t Ht; repeat (apply dropTimer_incl in Ht); exact Ht.
Qed.

(** A successful attempt releases its handle, arms nothing and does not
    exit, whatever its number. *)
Theorem resolved_attempt_is_quiet (m : Machine) (retryCount : Z) :
  let after := execM (MessageHandlerService.attemptReconnect retryCount Resolved) m in
  Handler.reconnectTimeout (self after) = None
  /\ nextTimer after = nextTimer m
  /\ (forall t, In t (timers after) -> In t (timers m))
  /\ exitCode after = exitCode m /\ emitted after = emitted m.
Proof.
  run_reconnect. cbn.
  destruct (Handler.reconnectTimeout (self m)) as [rt|] eqn:Hrt; cbn;
    repeat split; try reflexivity; try assumption;
    intros t Ht; repeat (apply dropTimer_incl in Ht); exact Ht.
Qed.

(** X28.  The heartbeat interval comes due: a connected session sends one
    HEARTBEAT frame on the [message] event, a session that is not connected
    sends nothing, and the interval stays armed. *)
Theorem heartbeat_fires (E : Env) (m : Machine) (t : Timer.t) (connected : Settlement) :
  exitCode m = None ->
  EventLoop.findTimer (Timer.id t) (timers m) = Some t ->
  Timer.callback t = HeartbeatTick -> Timer.repeats t = true ->
  let after := execM (EventLoop.fire E (Timer.id t) connected) m in
  emitted after
  = (emitted m
     ++ (if Handler.isConnected (self m)
         then [frame (Handler.socket (self m)) "message" HEARTBEAT
                 (dateNow E (clockReads m)) EmptyPayload]
         else []))%list
  /\ timers after = timers m /\ self after = self m.
Proof.
  intros Hexit Hfind Hcb Hrep.
  unfold execM, EventLoop.fire, EventLoop.runCallback,
    MessageHandlerService.heartbeatTick, MessageHandlerService.getIsConnected,
    Utils.createMessage, frame, mbind, M_bind, mret, M_ret, getSelf, Date_now, emit.
  rewrite Hexit, Hfind, Hrep, Hcb. cbn.
  destruct (Handler.isConnected (self m)); cbn;
    rewrite ?app_nil_r; repeat split; reflexivity.
Qed.

Lemma heartbeat_fires_witness :
  let m :=
    execM (MessageHandlerService.handleConnectAck Scenario.answering
             {| ConnectAckMessage.tunnelId := "T1";
                ConnectAckMessage.subdomain := "demo";
                ConnectAckMessage.publicUrl := "https://demo.tunnl.fit" |};;
           MessageHandlerService.setIsConnected true)
      Scenario.fresh in
  let t :=
    {| Timer.id := 0; Timer.delay := 30000; Timer.repeats := true;
       Timer.callback := HeartbeatTick |} in
  let after := execM (EventLoop.fire Scenario.answering (Timer.id t) Resolved) m in
  emitted after
  = (emitted m
     ++ (if Handler.isConnected (self m)
         then [frame (Handler.socket (self m)) "message" HEARTBEAT
                 (dateNow Scenario.answering (clockReads m)) EmptyPayload]
         else []))%list
  /\ timers after = timers m /\ self after = self m.
Proof.
  intros m t.
  apply (heartbeat_fires Scenario.answering m t Resolved); reflexivity.
Defined.

(** ** [TunnelClient.disconnect] *)



(** * Further properties of the normalizer and of the encoding *)

(** X15.  Unless the input mentions [localhost] or [127.0.0.1], and when a
    subdomain is given, the result always mentions the text captured as
    server domain. *)
Theorem fixPublicUrl_mentions_domain (url subdomain domain : string)
    (options : TunnelClientOptions.t) :
  Js.includes url "localhost" = false -> Js.includes url "127.0.0.1" = false ->
  Js.matchServer (TunnelClientOptions.serverUrl options) = Some domain ->
  Js.truthy subdomain = true ->
  Js.includes (Utils.fixPublicUrl url subdomain options) domain = true.
Proof.
  intros H1 H2 Hd Hs. apply fixPublicUrl_includes_domain; try assumption.
  rewrite test_localhost_includes, H1, H2. reflexivity.
Qed.

Lemma fixPublicUrl_mentions_domain_witness :
  Js.includes
    (Utils.fixPublicUrl "http://192.168.1.5:3000" "demo."
       {| TunnelClientOptions.serverUrl := "wss://tunnl.fit";
          TunnelClientOptions.localPort := 3000;
          TunnelClientOptions.subdomain := "demo";
          TunnelClientOptions.token := None;
          TunnelClientOptions.reconnect := Some true |})
    "tunnl.fit" = true.
Proof.
  apply (fixPublicUrl_mentions_domain "http://192.168.1.5:3000" "demo." "tunnl.fit");
    reflexivity.
Defined.

Lemma encode_length_below (n : nat) (bs : list Byte.byte) :
  List.length bs < n ->
  String.length (Base64.encode bs) = 4 * ((List.length bs + 2) / 3).
Proof.
  revert bs. induction n as [|n IH]; intros bs Hn; [lia|].
  destruct bs as [|a [|b [|c rest]]]; try reflexivity.
  cbn [Base64.encode String.length List.length].
  rewrite (IH rest) by (cbn [List.length] in Hn; lia).
  replace (S (S (S (List.length rest))) + 2) with (1 * 3 + (List.length rest + 2))
    by lia.
  rewrite Nat.div_add_l by lia. lia.
Qed.

(** The base64 text of [n] bytes has four characters for every started
    group of three bytes. *)
Theorem encode_length (bs : list Byte.byte) :
  String.length (Base64.encode bs) = 4 * ((List.length bs + 2) / 3).
Proof. apply (encode_length_below (S (List.length bs))). lia. Qed.

Lemma forwardRequest_response_witness :
  fst (HttpProxy.forwardRequest
         (Scenario.env (Responded 404 "Not Found"
                          {[ "content-type" := HString "text/plain" ]}
                          (bufferFromString "no such page")))
         {| HttpProxyObject.localPort := 3000 |}
         (MessageHandlerService.proxyRequest Scenario.answering Scenario.request)
         Scenario.established)
  = inr {| ProxyResponse.statusCode := 404;
           ProxyResponse.statusMessage := "Not Found";
           ProxyResponse.headers :=
             HttpProxy.filterHeaders
               (ProxyRequest.headers
                  (MessageHandlerService.proxyRequest Scenario.answering
                     Scenario.request));
           ProxyResponse.body := bufferFromString "no such page" |}.
Proof.
  apply (forwardRequest_response
           (Scenario.env (Responded 404 "Not Found"
                            {[ "content-type" := HString "text/plain" ]}
                            (bufferFromString "no such page")))
           {| HttpProxyObject.localPort := 3000 |}
           (MessageHandlerService.proxyRequest Scenario.answering Scenario.request)
           Scenario.established 404 "Not Found"
           {[ "content-type" := HString "text/plain" ]}
           (bufferFromString "no such page")).
  reflexivity.
Defined.

Lemma first_attempt_after_5s_witness :
  exists id,
    EventLoop.pendingReconnect
      (execM MessageHandlerService.handleDisconnect Scenario.established)
    = Some {| Timer.id := id; Timer.delay := 5000; Timer.repeats := false;
              Timer.callback := ReconnectTick 0 |}.
Proof.
  apply (first_attempt_after_5s Scenario.established).
  - constructor.
  - reflexivity.
  - reflexivity.
  - reflexivity.
Defined.
